(** * ChatRoom: the per-room coordinator of the meeting backend

    A shallow embedding of [src/app/durableObjects/ChatRoom.server.ts].

    The coordinator is a Durable Object: a string-keyed persistent store,
    one scheduled alarm, and the set of currently open channels.  Each
    method of the class becomes a function on an explicit [State]; what
    the coordinator emits (messages sent on channels, channels closed,
    reports posted to the lifecycle service) is appended to a trace kept
    in the state, so that theorems can speak about it.

    Conventions of the embedding:
    - [await]ed calls and calls whose promise is dropped
      ([userLeftNotification], [endMeeting], the roster broadcast of the
      sweep) are both run to completion where they are called: the
      handlers of one room are executed one after the other;
    - [Date.now()] and [crypto.randomUUID()] are inputs of the handler
      that reads them;
    - the lifecycle HTTP service is the [Env] the object is built with;
    - a channel whose [send] throws is a [Connection] with
      [healthy = false]; [close] removes the channel from the open set,
      as [getConnections] only yields channels that are open;
    - [assertNonNullable] and [assertNever] throw, a thrown error is the
      string that ends up in the [error] message, and [JSON.parse] has
      been applied to what arrives on a channel;
    - logging is not modelled. *)

From Stdlib Require Import ZArith String List Bool Lia.
From stdpp Require Import base option list gmap strings fin_maps.

Local Open Scope string_scope.
Local Open Scope list_scope.
Local Open Scope Z_scope.

(** ** Data model *)

(** Modelled from the spec: the [User] type of [~/types/Messages], which
    is not part of the sources at hand.  The fields are those the
    coordinator writes when it builds the default user in [onConnect],
    plus the optional ones the components read ([tracks.audio],
    [tracks.video], [transceiverSessionId]). *)
Record Tracks := mkTracks {
  audio : option string;
  audioEnabled : bool;
  audioUnavailable : bool;
  video : option string;
  videoEnabled : bool;
  screenShareEnabled : bool
}.

Record User := mkUser {
  user_id : string;
  name : string;
  joined : bool;
  raisedHand : bool;
  speaking : bool;
  tracks : Tracks;
  transceiverSessionId : option string
}.

(** Modelled from the spec: the [ServerMessage] union of
    [~/types/Messages] (coordinator to client). *)
Inductive ServerMessage :=
| S_roomState (meetingId : string) (users : list User)
| S_error (error : string)
| S_directMessage (from : string) (message : string)
| S_muteMic
| S_userLeftNotification (id : string)
| S_partyserver_pong.

(** Modelled from the spec: the [ClientMessage] union of
    [~/types/Messages] (client to coordinator); the tags are the cases
    of the [switch] in [onMessage].  [C_other] is a payload whose tag is
    none of them. *)
Inductive ClientMessage :=
| C_userLeft
| C_userUpdate (user : User)
| C_callsApiHistoryEntry (entry sessionId : string)
| C_directMessage (to message : string)
| C_muteUser (id : string)
| C_partyserver_ping
| C_heartbeat
| C_other (tag : string).

(** What arrives on a channel: a binary frame, or a string that
    [JSON.parse] either rejects ([None]) or turns into a message. *)
Inductive WSMessage :=
| WSBinary
| WSString (parsed : option ClientMessage).

(** Values kept in the durable store. *)
Inductive Value :=
| VString (s : string)
| VNumber (n : Z)
| VUser (u : User).

(** An open channel.  [healthy = false] stands for a channel whose
    transport has failed: [send] on it throws. *)
Record Connection := mkConnection {
  conn_id : string;
  healthy : bool
}.

(** Observable effects of the coordinator. *)
Inductive Event :=
| Sent (to : string) (m : ServerMessage)
| Closed (id : string) (code : Z)
| StatsReport (roomId : string) (peakUsers : Z) (status : string).

Record State := mkState {
  storage : gmap string Value;
  alarm_at : option Z;
  open_connections : list Connection;
  trace : list Event
}.

(** The lifecycle service, as seen through [fetch]. *)
Record MeetingData := mkMeetingData {
  roomId : string;
  peakUsers : Z;
  status : string
}.

Record Response := mkResponse {
  ok : bool;
  json : option MeetingData
}.

Record Env := mkEnv {
  api_get_room : string -> Response;
  api_post_room : string -> Z -> string -> bool
}.

(** What [getMeeting] returns. *)
Record Meeting := mkMeeting {
  meeting_roomId : string;
  ended : bool;
  peakUserCount : Z;
  meeting_id : string
}.

(** The request of a new connection: the segments of the URL's path
    ([new URL(url).pathname.split('/')]) and the resolved user name. *)
Record ConnectionContext := mkContext {
  request_path : list string;
  request_username : option string
}.

(** How a handler ends: normally, or by throwing. *)
Inductive Outcome :=
| Returned (st : State)
| Threw (e : string) (st : State).

Definition final (o : Outcome) : State :=
  match o with Returned st => st | Threw _ st => st end.

Definition and_then (o : Outcome) (k : State -> Outcome) : Outcome :=
  match o with Returned st => k st | Threw e st => Threw e st end.

Notation "'attempt' st <- o ; k" := (and_then o (fun st => k))
  (at level 10, st name, o at level 100, k at level 200).

(** ** Constants and keys *)

Definition alarmInterval : Z := 15000.

Definition session_key (id : string) : string := "session-" +:+ id.
Definition heartbeat_key (id : string) : string := "heartbeat-" +:+ id.

(** ** Strings *)

Fixpoint strip_prefix (p s : string) : option string :=
  match p, s with
  | EmptyString, _ => Some s
  | String a p', String b s' =>
      if Ascii.eqb a b then strip_prefix p' s' else None
  | String _ _, EmptyString => None
  end.

Definition starts_with (p s : string) : bool :=
  match strip_prefix p s with Some _ => true | None => false end.

(** [s.replace(pat, '')]: the first occurrence of [pat] is removed. *)
Fixpoint replace_first (pat s : string) : string :=
  match strip_prefix pat s with
  | Some rest => rest
  | None =>
      match s with
      | EmptyString => EmptyString
      | String c s' => String c (replace_first pat s')
      end
  end.

(** JavaScript truthiness of a [string | undefined]. *)
Definition truthy (o : option string) : bool :=
  match o with
  | Some s => negb (String.eqb s "")
  | None => false
  end.

Fixpoint indexOf (x : string) (l : list string) : option nat :=
  match l with
  | [] => None
  | y :: l' => if String.eqb y x then Some O else S <$> indexOf x l'
  end.

(** ** State updates *)

Definition set_storage (f : gmap string Value -> gmap string Value)
    (st : State) : State :=
  mkState (f (storage st)) (alarm_at st) (open_connections st) (trace st).

Definition set_alarm_at (a : option Z) (st : State) : State :=
  mkState (storage st) a (open_connections st) (trace st).

Definition set_connections (f : list Connection -> list Connection)
    (st : State) : State :=
  mkState (storage st) (alarm_at st) (f (open_connections st)) (trace st).

Definition emit (e : Event) (st : State) : State :=
  mkState (storage st) (alarm_at st) (open_connections st) (trace st ++ [e]).

(** ** The durable store *)

Definition storage_put (k : string) (v : Value) : State -> State :=
  set_storage (insert k v).

Definition storage_delete (k : string) : State -> State :=
  set_storage (delete k).

(** [deleteAll] clears the keys; the alarm is a separate slot. *)
Definition storage_deleteAll : State -> State :=
  set_storage (fun _ => ∅).

Definition storage_list (p : string) (st : State) : gmap string Value :=
  filter (fun kv => Is_true (starts_with p kv.1)) (storage st).

Definition as_string (v : Value) : option string :=
  match v with VString s => Some s | _ => None end.

Definition as_number (v : Value) : option Z :=
  match v with VNumber n => Some n | _ => None end.

Definition as_user (v : Value) : option User :=
  match v with VUser u => Some u | _ => None end.

Definition get_string (k : string) (st : State) : option string :=
  storage st !! k ≫= as_string.

Definition get_number (k : string) (st : State) : option Z :=
  storage st !! k ≫= as_number.

Definition get_user (k : string) (st : State) : option User :=
  storage st !! k ≫= as_user.

Definition getRoomCode (st : State) : option string := get_string "roomCode" st.

Definition getMeetingId (st : State) : option string := get_string "meetingId" st.

Definition getUsers (st : State) : gmap string User :=
  omap as_user (storage_list "session-" st).

(** ** Channels *)

Definition getConnections (st : State) : list Connection := open_connections st.

Definition same_connection (a b : Connection) : bool :=
  String.eqb (conn_id a) (conn_id b).

(** [connection.send]: [None] when the call throws. *)
Definition send (connection : Connection) (m : ServerMessage) (st : State)
    : option State :=
  if healthy connection then Some (emit (Sent (conn_id connection) m) st)
  else None.

Definition close (connection : Connection) (code : Z) (st : State) : State :=
  emit (Closed (conn_id connection) code)
    (set_connections
       (filter (fun c => conn_id c ≠ conn_id connection)) st).

Definition sendMessage (connection : Connection) (m : ServerMessage)
    (st : State) : Outcome :=
  match send connection m st with
  | Some st' => Returned st'
  | None => Threw "send" st
  end.

(** ** The coordinator *)

Section Coordinator.

Variable env : Env.

(** [isRoomValid]: a missing room code is answered locally with a 400,
    anything else is asked of the lifecycle service. *)
Definition isRoomValid (roomCode : option string) : Response :=
  match roomCode with
  | Some rc => if truthy roomCode then api_get_room env rc
               else mkResponse false None
  | None => mkResponse false None
  end.

(** [updateMeetingStats]: posts the payload, answers [resp.ok]. *)
Definition updateMeetingStats (room : string) (peak : Z) (stat : string)
    (st : State) : bool * State :=
  (api_post_room env room peak stat, emit (StatsReport room peak stat) st).

Definition extractRoomCode (segments : list string) : option string :=
  match indexOf "rooms" segments with
  | Some idx => segments !! S idx
  | None => None
  end.

Definition getMeeting (meetingId : string) (st : State) : option Meeting :=
  match getRoomCode st with
  | Some roomCode =>
      if negb (truthy (Some roomCode)) then None
      else
        let meeting := isRoomValid (Some roomCode) in
        if negb (ok meeting) then None
        else
          match json meeting with
          | None => None
          | Some response =>
              Some {| meeting_roomId := roomCode;
                      ended := existsb (String.eqb (status response))
                                 ["done"; "canceled"; "no_show"];
                      peakUserCount := peakUsers response;
                      meeting_id := meetingId |}
          end
  | None => None
  end.

Definition createMeeting (uuid : string) (st : State)
    : option Meeting * State :=
  let st1 := storage_put "meetingId" (VString uuid) st in
  (getMeeting uuid st1, st1).

(** *** Broadcast *)

Definition is_excluded (excludedConnection : option Connection)
    (connection : Connection) : bool :=
  match excludedConnection with
  | Some x => same_connection connection x
  | None => false
  end.

(** The [for] loop of [broadcastMessage]; the boolean is
    [didSomeoneQuit]. *)
Fixpoint fanout (message : ServerMessage)
    (excludedConnection : option Connection)
    (connections : list Connection) (st : State) : bool * State :=
  match connections with
  | [] => (false, st)
  | connection :: rest =>
      if is_excluded excludedConnection connection
      then fanout message excludedConnection rest st
      else
        match send connection message st with
        | Some st1 => fanout message excludedConnection rest st1
        | None =>
            let st1 := close connection 1011 st in
            let st2 := storage_delete (session_key (conn_id connection)) st1 in
            (true, snd (fanout message excludedConnection rest st2))
        end
  end.

(** The message [broadcastRoomState] builds. *)
Definition roomStateMessage (st : State) : ServerMessage :=
  match getMeetingId st with
  | Some meetingId =>
      if truthy (Some meetingId)
      then S_roomState meetingId ((map_to_list (getUsers st)).*2)
      else S_error "No meetingId found, closing connection"
  | None => S_error "No meetingId found, closing connection"
  end.

(** [broadcastMessage] and [broadcastRoomState] call each other: a round
    in which some channel failed is followed by a roster broadcast.  Each
    such round closes a channel, so the number of open channels bounds
    the number of rounds. *)
Fixpoint broadcast_rounds (fuel : nat) (message : ServerMessage)
    (excludedConnection : option Connection) (st : State) : State :=
  let '(didSomeoneQuit, st1) :=
    fanout message excludedConnection (getConnections st) st in
  if didSomeoneQuit then
    match fuel with
    | S fuel' => broadcast_rounds fuel' (roomStateMessage st1) None st1
    | O => st1
    end
  else st1.

Definition broadcastMessage (message : ServerMessage)
    (excludedConnection : option Connection) (st : State) : State :=
  broadcast_rounds (length (getConnections st)) message excludedConnection st.

Definition broadcastRoomState (st : State) : State :=
  broadcastMessage (roomStateMessage st) None st.

Definition userLeftNotification (id : string) (st : State) : State :=
  broadcastMessage (S_userLeftNotification id) None st.

(** *** Meeting lifecycle and sweep *)

Definition endMeeting (meetingId : string) (st : State) : State :=
  let roomCode := getRoomCode st in
  let st1 := storage_deleteAll st in
  match roomCode with
  | Some rc =>
      if negb (truthy roomCode) then st1
      else
        let meeting := getMeeting meetingId st1 in
        let peak := match meeting with
                    | Some m => peakUserCount m
                    | None => 0
                    end in
        snd (updateMeetingStats rc peak "done" st1)
  | None => st1
  end.

(** [heartbeat === undefined || heartbeat + alarmInterval < now] *)
Definition timed_out (heartbeat : option Z) (now : Z) : bool :=
  match heartbeat with
  | None => true
  | Some h => h + alarmInterval <? now
  end.

(** The body of the [for] loop of [cleanupOldConnections]; [connections]
    is the snapshot taken before the loop. *)
Definition sweep_user (now : Z) (connections : list Connection)
    (acc : nat * State) (entry : string * User) : nat * State :=
  let '(removedUsers, st) := acc in
  let key := entry.1 in
  let connectionId := replace_first "session-" key in
  let heartbeat := get_number (heartbeat_key connectionId) st in
  if timed_out heartbeat now then
    let st1 := userLeftNotification connectionId st in
    let st2 := storage_delete key st1 in
    let st3 :=
      match find (fun c => String.eqb (conn_id c) connectionId) connections with
      | Some connection => close connection 1011 st2
      | None => st2
      end in
    (S removedUsers, st3)
  else (removedUsers, st).

Definition cleanupOldConnections (now : Z) (st : State) : nat * State :=
  let meetingId := getMeetingId st in
  let users := getUsers st in
  let connections := getConnections st in
  let '(removedUsers, st1) :=
    fold_left (sweep_user now connections) (map_to_list users) (O, st) in
  let activeUserCount := size (getUsers st1) in
  let st2 :=
    match meetingId with
    | Some mid =>
        if truthy meetingId && Nat.eqb activeUserCount 0
        then endMeeting mid st1
        else if Nat.ltb 0 removedUsers then broadcastRoomState st1 else st1
    | None =>
        if Nat.ltb 0 removedUsers then broadcastRoomState st1 else st1
    end in
  (activeUserCount, st2).

Definition alarm (now : Z) (st : State) : State :=
  let '(activeUserCount, st1) := cleanupOldConnections now st in
  let st2 := broadcastRoomState st1 in
  if negb (Nat.eqb activeUserCount 0)
  then set_alarm_at (Some (now + alarmInterval)) st2
  else st2.

(** [meeting.ended !== null]: [ended] is a boolean, and no boolean is
    strictly equal to [null]. *)
Definition strict_ne_null (b : bool) : bool := true.

Definition trackPeakUserCount (now : Z) (uuid : string) (st : State)
    : option string * State :=
  let meetingId := getMeetingId st in
  let '(meeting, st1) :=
    match meetingId with
    | Some mid =>
        if truthy meetingId then (getMeeting mid st, st)
        else createMeeting uuid st
    | None => createMeeting uuid st
    end in
  let st2 := snd (cleanupOldConnections now st1) in
  match meeting with
  | None => (None, st2)
  | Some meeting =>
      let previousCount := peakUserCount meeting in
      let userCount := size (getUsers st2) in
      if (previousCount <? Z.of_nat userCount) || strict_ne_null (ended meeting)
      then (meetingId,
            snd (updateMeetingStats (meeting_roomId meeting)
                   (peakUserCount meeting) "started" st2))
      else (meetingId, st2)
  end.

(** *** Handlers *)

Definition defaultUser (id username : string) : User :=
  {| user_id := id;
     name := username;
     joined := false;
     raisedHand := false;
     speaking := false;
     tracks := {| audio := None;
                  audioEnabled := false;
                  audioUnavailable := false;
                  video := None;
                  videoEnabled := false;
                  screenShareEnabled := false |};
     transceiverSessionId := None |}.

(** [!(await this.ctx.storage.getAlarm())] *)
Definition no_alarm (st : State) : bool :=
  match alarm_at st with
  | Some t => t =? 0
  | None => true
  end.

Definition onConnect (connection : Connection) (ctx : ConnectionContext)
    (now : Z) (uuid : string) (st : State) : Outcome :=
  let roomCode := extractRoomCode (request_path ctx) in
  let st1 :=
    match roomCode with
    | Some rc =>
        if truthy roomCode && negb (truthy (getRoomCode st))
        then storage_put "roomCode" (VString rc) st
        else st
    | None => st
    end in
  let validRoom := isRoomValid roomCode in
  if negb (ok validRoom) then
    attempt st2 <- sendMessage connection (S_error "Room invalid") st1;
    Returned (close connection 4004 st2)
  else
    let st2 :=
      if no_alarm st1 then set_alarm_at (Some (now + alarmInterval)) st1
      else st1 in
    match request_username ctx with
    | None => Threw "assertNonNullable" st2
    | Some username =>
        let user :=
          match get_user (session_key (conn_id connection)) st2 with
          | Some u => u
          | None => defaultUser (conn_id connection) username
          end in
        let st3 := storage_put (session_key (conn_id connection)) (VUser user) st2 in
        let st4 := storage_put (heartbeat_key (conn_id connection)) (VNumber now) st3 in
        let st5 := snd (trackPeakUserCount now uuid st4) in
        Returned (broadcastRoomState st5)
    end.

(** [{...otherUser, tracks: {...otherUser.tracks, audioEnabled: false}}] *)
Definition mute (u : User) : User :=
  {| user_id := user_id u;
     name := name u;
     joined := joined u;
     raisedHand := raisedHand u;
     speaking := speaking u;
     tracks := {| audio := audio (tracks u);
                  audioEnabled := false;
                  audioUnavailable := audioUnavailable (tracks u);
                  video := video (tracks u);
                  videoEnabled := videoEnabled (tracks u);
                  screenShareEnabled := screenShareEnabled (tracks u) |};
     transceiverSessionId := transceiverSessionId u |}.

(** The first open channel whose id is [id]: where the [for] loops of
    the [directMessage] and [muteUser] cases stop. *)
Definition find_connection (id : string) (st : State) : option Connection :=
  find (fun c => String.eqb (conn_id c) id) (getConnections st).

(** The [switch] of [onMessage]. *)
Definition handle (connection : Connection) (data : ClientMessage)
    (now : Z) (st : State) : Outcome :=
  match data with
  | C_userLeft =>
      let st1 := close connection 1000 st in
      let st2 := userLeftNotification (conn_id connection) st1 in
      let st3 := storage_delete (session_key (conn_id connection)) st2 in
      let st4 := storage_delete (heartbeat_key (conn_id connection)) st3 in
      Returned (broadcastRoomState st4)
  | C_userUpdate user =>
      let st1 := storage_put (session_key (conn_id connection)) (VUser user) st in
      Returned (broadcastRoomState st1)
  | C_callsApiHistoryEntry _ _ => Returned st
  | C_directMessage to message =>
      let fromUser := get_user (session_key (conn_id connection)) st in
      match find_connection to st with
      | Some otherConnection =>
          match fromUser with
          | Some u =>
              sendMessage otherConnection (S_directMessage (name u) message) st
          | None => Threw "TypeError" st
          end
      | None =>
          match fromUser with
          | Some _ => Returned st
          | None => Threw "TypeError" st
          end
      end
  | C_muteUser id =>
      let user := get_user (session_key (conn_id connection)) st in
      match find_connection id st with
      | Some otherConnection =>
          match get_user (session_key id) st with
          | Some otherUser =>
              let st1 := storage_put (session_key id) (VUser (mute otherUser)) st in
              attempt st2 <- sendMessage otherConnection S_muteMic st1;
              Returned (broadcastRoomState st2)
          | None => Threw "TypeError" st
          end
      | None =>
          match user with
          | Some _ => Returned st
          | None => Threw "TypeError" st
          end
      end
  | C_partyserver_ping => Returned st
  | C_heartbeat =>
      Returned (storage_put (heartbeat_key (conn_id connection)) (VNumber now) st)
  | C_other _ => Threw "assertNever" st
  end.

Definition onMessage (connection : Connection) (message : WSMessage)
    (now : Z) (st : State) : Outcome :=
  let body :=
    match message with
    | WSBinary => Returned st
    | WSString None => Threw "SyntaxError" st
    | WSString (Some data) => handle connection data now st
    end in
  match body with
  | Returned st' => Returned st'
  | Threw e st' => sendMessage connection (S_error e) st'
  end.

(** [onStart]: a room whose stored code the lifecycle service no longer
    accepts is torn down. *)
Definition onStart (st : State) : State :=
  match getRoomCode st with
  | Some roomCode =>
      if negb (truthy (Some roomCode)) then st
      else
        let valid := isRoomValid (Some roomCode) in
        if negb (ok valid) then
          let st1 := set_alarm_at None st in
          let st2 :=
            fold_left (fun s c => close c 4004 s) (getConnections st1) st1 in
          storage_deleteAll st2
        else st
  | None => st
  end.

(** [onClose] only logs. *)
Definition onClose (connection : Connection) (code : Z) (reason : string)
    (wasClean : bool) (st : State) : State := st.

(** [onError] logs and broadcasts the roster. *)
Definition onError (connection : Connection) (st : State) : State :=
  broadcastRoomState st.

End Coordinator.

(** * Auxiliary definitions *)

(** ** One round of fan-out, in closed form *)

(** A channel for which the round fails: not excluded, and its [send]
    throws. *)
Definition fails (x : option Connection) (c : Connection) : bool :=
  negb (is_excluded x c) && negb (healthy c).

(** What one round emits, channel by channel. *)
Definition fanout_events (m : ServerMessage) (x : option Connection)
    (cs : list Connection) : list Event :=
  flat_map
    (fun c =>
       if is_excluded x c then []
       else if healthy c then [Sent (conn_id c) m]
       else [Closed (conn_id c) 1011])
    cs.

(** An event a broadcast may append: a message satisfying [Q] sent on a
    healthy channel of [cs], or a broken channel of [cs] closed with
    1011. *)
Definition broadcast_event (Q : ServerMessage -> Prop) (cs : list Connection)
    (ev : Event) : Prop :=
  match ev with
  | Sent i m =>
      Q m /\ exists c, c ∈ cs /\ conn_id c = i /\ healthy c = true
  | Closed i code =>
      code = 1011 /\ exists c, c ∈ cs /\ conn_id c = i /\ healthy c = false
  | StatsReport _ _ _ => False
  end.

Definition no_meeting_error : ServerMessage :=
  S_error "No meetingId found, closing connection".

(** [st'] differs from [st] at most in its session records, its open
    channels and a longer trace: what a broadcast and an eviction may
    change. *)
Definition keeps_room (st st' : State) : Prop :=
  alarm_at st' = alarm_at st
  /\ (forall k, starts_with "session-" k = false ->
                storage st' !! k = storage st !! k)
  /\ exists evs, trace st' = trace st ++ evs.

(** [st'] comes from [st] by deleting records, closing channels and
    extending the trace; nothing is written: what the sweep, a broadcast
    and the end of a meeting have in common. *)
Definition only_removes (st st' : State) : Prop :=
  (forall k, storage st' !! k = storage st !! k \/ storage st' !! k = None)
  /\ (forall c, c ∈ open_connections st' -> c ∈ open_connections st)
  /\ exists evs, trace st' = trace st ++ evs.

(** [st'] differs from [st] at most in session records, in the
    heartbeat record of [id], in channels that were closed and in a
    longer trace. *)
Definition sender_frame (id : string) (st st' : State) : Prop :=
  alarm_at st' = alarm_at st
  /\ (forall k, starts_with "session-" k = false -> k <> heartbeat_key id ->
                storage st' !! k = storage st !! k)
  /\ (forall c, c ∈ open_connections st' -> c ∈ open_connections st)
  /\ exists evs, trace st' = trace st ++ evs.

(** The state the loop of [cleanupOldConnections] ends in. *)
Definition swept (now : Z) (st : State) : State :=
  (fold_left (sweep_user now (getConnections st))
     (map_to_list (getUsers st)) (O, st)).2.

(** The behaviour claimed of [alarm] when the sweep leaves no user: all
    keys are removed, a [done] report is issued, the alarm is not set
    again. *)
Definition ends_meeting_when_empty (env : Env) (now : Z) (st : State) : Prop :=
  (cleanupOldConnections env now st).1 = 0%nat ->
  let st' := alarm env now st in
  storage st' = ∅
  /\ (exists evs room peak,
        trace st' = trace st ++ evs /\ In (StatsReport room peak "done") evs)
  /\ alarm_at st' = alarm_at st.

(** The behaviour claimed of [broadcastRoomState] when no meeting id is
    stored: no roster goes out, every open channel is sent the error, no
    channel is closed and no record is deleted. *)
Definition closes_nothing_without_meeting (st : State) : Prop :=
  truthy (getMeetingId st) = false ->
  let st' := broadcastRoomState st in
  (exists evs,
     trace st' = trace st ++ evs
     /\ (forall i mid us, ~ In (Sent i (S_roomState mid us)) evs)
     /\ (forall c, c ∈ getConnections st ->
                   In (Sent (conn_id c) no_meeting_error) evs))
  /\ open_connections st' = open_connections st
  /\ storage st' = storage st.

(** ** Fixtures: the room of the scenario *)

Definition alice : User := defaultUser "c1" "Alice".
Definition bob : User := defaultUser "c2" "Bob".
Definition c1 : Connection := mkConnection "c1" true.
Definition c2 : Connection := mkConnection "c2" true.
Definition c2_broken : Connection := mkConnection "c2" false.

(** A lifecycle service that knows every room, with a recorded peak and
    a status. *)
Definition service (peak : Z) (stat : string) : Env :=
  mkEnv (fun rc => mkResponse true (Some (mkMeetingData rc peak stat)))
        (fun _ _ _ => true).

(** A lifecycle service that knows no room. *)
Definition no_service : Env :=
  mkEnv (fun _ => mkResponse false None) (fun _ _ _ => false).

Definition empty_room : State := mkState ∅ None [] [].

(** A room whose first connection stopped at the unresolved user name:
    the room code is stored and the alarm armed, no meeting was created. *)
Definition unnamed_room : State :=
  mkState {[ "roomCode" := VString "abc123" ]} (Some 16000) [c1] [].

(** A room whose storage has been cleared but for Bob's record, with
    Alice's channel and Bob's broken one still open. *)
Definition cleared_room (cs : list Connection) : State :=
  mkState {[ session_key "c2" := VUser bob ]} None cs [].

(** Alice (last seen at 1000) and Bob (last seen at 20000) in room
    [abc123], meeting [m1]. *)
Definition room_of (cs : list Connection) : State :=
  {| storage := list_to_map
       [("roomCode", VString "abc123"); ("meetingId", VString "m1");
        (session_key "c1", VUser alice); (heartbeat_key "c1", VNumber 1000);
        (session_key "c2", VUser bob); (heartbeat_key "c2", VNumber 20000)];
     alarm_at := Some 16000;
     open_connections := cs;
     trace := [] |}.

(** * Properties *)

(** ** Keys and prefixes *)

Lemma append_cons a p r : String a p +:+ r = String a (p +:+ r).
Proof. reflexivity. Qed.

Lemma strip_prefix_append p r : strip_prefix p (p +:+ r) = Some r.
Proof.
  induction p as [|a p IH]; [reflexivity|].
  rewrite append_cons. simpl. rewrite Ascii.eqb_refl. exact IH.
Qed.

Lemma strip_prefix_Some p s r : strip_prefix p s = Some r -> s = p +:+ r.
Proof.
  revert s. induction p as [|a p IH]; intros s.
  - simpl. intros [= ->]. reflexivity.
  - destruct s as [|b s]; simpl; [discriminate|].
    destruct (Ascii.eqb a b) eqn:E; [|discriminate].
    apply Ascii.eqb_eq in E. subst b. intros H.
    rewrite append_cons. f_equal. auto.
Qed.

Lemma replace_first_unfold pat s :
  replace_first pat s =
  match strip_prefix pat s with
  | Some rest => rest
  | None => match s with
            | EmptyString => EmptyString
            | String c s' => String c (replace_first pat s')
            end
  end.
Proof. destruct s; reflexivity. Qed.

Lemma replace_first_session id : replace_first "session-" (session_key id) = id.
Proof.
  rewrite replace_first_unfold. unfold session_key.
  now rewrite strip_prefix_append.
Qed.

Lemma starts_with_session id : starts_with "session-" (session_key id) = true.
Proof. unfold starts_with, session_key. now rewrite strip_prefix_append. Qed.

Lemma starts_with_heartbeat id : starts_with "session-" (heartbeat_key id) = false.
Proof. reflexivity. Qed.

Lemma starts_with_session_key k :
  starts_with "session-" k = true ->
  k = session_key (replace_first "session-" k).
Proof.
  unfold starts_with. rewrite replace_first_unfold.
  destruct (strip_prefix "session-" k) as [r|] eqn:E; [|discriminate].
  intros _. now apply strip_prefix_Some.
Qed.

Lemma session_key_inj a b : session_key a = session_key b -> a = b.
Proof. unfold session_key. cbv [append]. congruence. Qed.

Lemma heartbeat_not_session a b : heartbeat_key a <> session_key b.
Proof. unfold session_key, heartbeat_key. cbv [append]. discriminate. Qed.

Arguments session_key : simpl never.
Arguments heartbeat_key : simpl never.
Arguments String.eqb : simpl nomatch.

(** ** The roster *)

Lemma getUsers_lookup st k :
  getUsers st !! k =
  if starts_with "session-" k then get_user k st else None.
Proof.
  unfold getUsers, storage_list, get_user.
  rewrite lookup_omap, map_lookup_filter.
  destruct (storage st !! k) as [v|]; simpl;
    destruct (starts_with "session-" k); reflexivity.
Qed.

Lemma getUsers_ext st st' : storage st = storage st' -> getUsers st = getUsers st'.
Proof. unfold getUsers, storage_list. now intros ->. Qed.

Lemma getUsers_put_session id u st :
  getUsers (storage_put (session_key id) (VUser u) st)
  = <[session_key id := u]> (getUsers st).
Proof.
  apply map_eq. intros k. rewrite getUsers_lookup.
  destruct (decide (session_key id = k)) as [<-|Hne].
  - rewrite starts_with_session, lookup_insert_eq.
    unfold get_user, storage_put. simpl. now rewrite lookup_insert_eq.
  - rewrite lookup_insert_ne by done. rewrite getUsers_lookup.
    unfold get_user, storage_put. simpl. now rewrite lookup_insert_ne.
Qed.

(** ** One round of fan-out *)

Lemma filter_all {A} (P : A -> Prop) `{!forall x, Decision (P x)} (l : list A) :
  (forall x, x ∈ l -> P x) -> filter P l = l.
Proof.
  induction l as [|a l IH]; intros Hall; [reflexivity|].
  rewrite filter_cons_True by (apply Hall; left).
  f_equal. apply IH. intros x Hx. apply Hall. now right.
Qed.

Lemma fanout_quit m x cs st : (fanout m x cs st).1 = existsb (fails x) cs.
Proof.
  revert st. induction cs as [|c cs IH]; intros st; simpl; [reflexivity|].
  unfold fails at 1, send.
  destruct (is_excluded x c); simpl; [apply IH|].
  destruct (healthy c); simpl; [apply IH|reflexivity].
Qed.

Lemma fanout_alarm m x cs st : alarm_at (fanout m x cs st).2 = alarm_at st.
Proof.
  revert st. induction cs as [|c cs IH]; intros st; simpl; [reflexivity|].
  unfold send.
  destruct (is_excluded x c); [apply IH|].
  destruct (healthy c); simpl; rewrite IH; reflexivity.
Qed.

Lemma fanout_trace m x cs st :
  trace (fanout m x cs st).2 = trace st ++ fanout_events m x cs.
Proof.
  revert st. induction cs as [|c cs IH]; intros st; simpl.
  - now rewrite app_nil_r.
  - unfold send.
    destruct (is_excluded x c); [apply IH|].
    destruct (healthy c); simpl; rewrite IH; simpl;
      now rewrite <- app_assoc.
Qed.

Lemma fanout_storage m x cs st k :
  storage (fanout m x cs st).2 !! k =
  if existsb (fun c => fails x c && String.eqb (session_key (conn_id c)) k) cs
  then None else storage st !! k.
Proof.
  revert st. induction cs as [|c cs IH]; intros st; simpl; [reflexivity|].
  unfold fails at 1, send.
  destruct (is_excluded x c); simpl; [apply IH|].
  destruct (healthy c); simpl; [now rewrite IH|].
  rewrite IH. simpl.
  destruct (String.eqb_spec (session_key (conn_id c)) k) as [->|Hne]; simpl.
  - rewrite lookup_delete_eq. now destruct (existsb _ cs).
  - now rewrite lookup_delete_ne.
Qed.

Lemma fanout_connections m x cs st :
  open_connections (fanout m x cs st).2 =
  filter (fun c' => Forall (fun c => fails x c = true -> conn_id c' <> conn_id c) cs)
    (open_connections st).
Proof.
  revert st. induction cs as [|c cs IH]; intros st; simpl.
  - symmetry. apply filter_all. intros; constructor.
  - assert (Hf : fails x c = negb (is_excluded x c) && negb (healthy c))
      by reflexivity.
    unfold send.
    destruct (is_excluded x c) eqn:Ex; simpl in *.
    + rewrite IH. apply list_filter_iff. intros c'.
      rewrite Forall_cons, Hf. intuition discriminate.
    + destruct (healthy c) eqn:Hc; simpl in *.
      * rewrite IH. simpl. apply list_filter_iff. intros c'.
        rewrite Forall_cons, Hf. intuition discriminate.
      * rewrite IH. simpl. rewrite list_filter_filter.
        apply list_filter_iff. intros c'.
        rewrite Forall_cons, Hf. intuition.
Qed.

Lemma fanout_connections_elem m x cs st c :
  c ∈ open_connections (fanout m x cs st).2 -> c ∈ open_connections st.
Proof. rewrite fanout_connections, list_elem_of_filter. tauto. Qed.

Lemma fanout_no_failure_connections m x cs st :
  existsb (fails x) cs = false ->
  open_connections (fanout m x cs st).2 = open_connections st.
Proof.
  intros Hq. rewrite fanout_connections. apply filter_all.
  intros c' _. apply Forall_forall. intros c Hc Hf.
  assert (existsb (fails x) cs = true); [|congruence].
  apply existsb_exists. exists c. split; [now apply list_elem_of_In|exact Hf].
Qed.

Lemma fanout_no_failure_storage m x cs st :
  existsb (fails x) cs = false ->
  storage (fanout m x cs st).2 = storage st.
Proof.
  intros Hq. apply map_eq. intros k. rewrite fanout_storage.
  destruct (existsb (fun c => fails x c && _) cs) eqn:E; [|reflexivity].
  apply existsb_exists in E as (c & Hc & Hf).
  apply andb_true_iff in Hf as [Hf _].
  assert (existsb (fails x) cs = true); [|congruence].
  apply existsb_exists. now exists c.
Qed.

(** A round in which some channel failed leaves fewer channels open. *)
Lemma fanout_shrinks m x st :
  (fanout m x (getConnections st) st).1 = true ->
  (length (open_connections (fanout m x (getConnections st) st).2)
   < length (open_connections st))%nat.
Proof.
  rewrite fanout_quit. intros (c & Hc & Hf)%existsb_exists.
  rewrite fanout_connections.
  apply length_filter_lt with (x := c); [now apply list_elem_of_In|].
  rewrite Forall_forall. intros Hall.
  apply (Hall c); [now apply list_elem_of_In|exact Hf|reflexivity].
Qed.

(** ** Broadcast: the rounds end *)

Lemma broadcast_rounds_unfold fuel m x st :
  broadcast_rounds fuel m x st =
  let r := fanout m x (getConnections st) st in
  if r.1 then
    match fuel with
    | S fuel' => broadcast_rounds fuel' (roomStateMessage r.2) None r.2
    | O => r.2
    end
  else r.2.
Proof.
  destruct fuel; simpl; destruct (fanout m x (getConnections st) st);
    reflexivity.
Qed.

(** Any fuel that covers the open channels gives the same result: the
    out-of-fuel branch is dead code. *)
Lemma broadcast_rounds_fuel f1 : forall f2 m x st,
  (length (open_connections st) <= f1)%nat ->
  (length (open_connections st) <= f2)%nat ->
  broadcast_rounds f1 m x st = broadcast_rounds f2 m x st.
Proof.
  induction f1 as [|f1 IH]; intros f2 m x st H1 H2;
    rewrite (broadcast_rounds_unfold _ m x st);
    rewrite (broadcast_rounds_unfold f2 m x st); cbv zeta;
    destruct ((fanout m x (getConnections st) st).1) eqn:Hq; try reflexivity;
    pose proof (fanout_shrinks m x st Hq) as Hlt.
  - lia.
  - destruct f2 as [|f2]; [lia|]. apply IH; lia.
Qed.

Lemma broadcastMessage_unfold m x st :
  broadcastMessage m x st =
  let r := fanout m x (getConnections st) st in
  if r.1 then broadcastRoomState r.2 else r.2.
Proof.
  unfold broadcastMessage at 1. rewrite broadcast_rounds_unfold. cbv zeta.
  destruct ((fanout m x (getConnections st) st).1) eqn:Hq; [|reflexivity].
  pose proof (fanout_shrinks m x st Hq) as Hlt.
  destruct (length (getConnections st)) as [|n] eqn:Hn.
  - unfold getConnections in Hn. lia.
  - unfold broadcastRoomState, broadcastMessage.
    apply broadcast_rounds_fuel; unfold getConnections in *; lia.
Qed.

(** Induction over the rounds of a broadcast. *)
Lemma broadcast_ind (P : ServerMessage -> option Connection -> State -> State -> Prop) :
  (forall m x st,
     (fanout m x (getConnections st) st).1 = false ->
     P m x st (fanout m x (getConnections st) st).2) ->
  (forall m x st st',
     (fanout m x (getConnections st) st).1 = true ->
     let st1 := (fanout m x (getConnections st) st).2 in
     P (roomStateMessage st1) None st1 st' ->
     P m x st st') ->
  forall m x st, P m x st (broadcastMessage m x st).
Proof.
  intros Hbase Hstep m x st.
  remember (length (open_connections st)) as n eqn:Hn.
  revert m x st Hn.
  induction n as [n IH] using lt_wf_ind. intros m x st Hn.
  rewrite broadcastMessage_unfold. cbv zeta.
  destruct ((fanout m x (getConnections st) st).1) eqn:Hq.
  - apply Hstep; [exact Hq|]. cbv zeta. unfold broadcastRoomState.
    eapply IH; [|reflexivity].
    subst n. now apply fanout_shrinks.
  - now apply Hbase.
Qed.

(** ** Broadcast: what it leaves alone *)

Lemma broadcastMessage_alarm m x st :
  alarm_at (broadcastMessage m x st) = alarm_at st.
Proof.
  apply (broadcast_ind (fun _ _ s s' => alarm_at s' = alarm_at s)).
  - intros. apply fanout_alarm.
  - intros m' x' s s' _ s1 H. rewrite H. apply fanout_alarm.
Qed.

Lemma fanout_storage_cases m x cs st k :
  storage (fanout m x cs st).2 !! k = storage st !! k
  \/ (starts_with "session-" k = true
      /\ storage (fanout m x cs st).2 !! k = None).
Proof.
  rewrite fanout_storage.
  destruct (existsb (fun c => fails x c && _) cs) eqn:E; [right|now left].
  apply existsb_exists in E as (c & _ & [_ Hk%String.eqb_eq]%andb_true_iff).
  subst k. split; [apply starts_with_session|reflexivity].
Qed.

(** A broadcast writes nothing: a key keeps its value, or it is a
    session key and has been deleted. *)
Lemma broadcastMessage_storage m x st k :
  storage (broadcastMessage m x st) !! k = storage st !! k
  \/ (starts_with "session-" k = true
      /\ storage (broadcastMessage m x st) !! k = None).
Proof.
  apply (broadcast_ind (fun _ _ s s' =>
    storage s' !! k = storage s !! k
    \/ (starts_with "session-" k = true /\ storage s' !! k = None))).
  - intros. apply fanout_storage_cases.
  - intros m' x' s s' _ s1 [H|H]; [|now right].
    rewrite H. apply fanout_storage_cases.
Qed.

Lemma broadcastMessage_storage_other m x st k :
  starts_with "session-" k = false ->
  storage (broadcastMessage m x st) !! k = storage st !! k.
Proof.
  intros Hk. destruct (broadcastMessage_storage m x st k) as [H|[H _]];
    [exact H|congruence].
Qed.

Lemma broadcastMessage_storage_None m x st k :
  storage st !! k = None -> storage (broadcastMessage m x st) !! k = None.
Proof.
  intros Hk. destruct (broadcastMessage_storage m x st k) as [H|[_ H]];
    congruence.
Qed.

Lemma broadcastMessage_getMeetingId m x st :
  getMeetingId (broadcastMessage m x st) = getMeetingId st.
Proof.
  unfold getMeetingId, get_string.
  now rewrite broadcastMessage_storage_other.
Qed.

Lemma broadcastMessage_getRoomCode m x st :
  getRoomCode (broadcastMessage m x st) = getRoomCode st.
Proof.
  unfold getRoomCode, get_string.
  now rewrite broadcastMessage_storage_other.
Qed.

(** The events of the first round come first in what a broadcast
    appends to the trace. *)
Lemma broadcastMessage_trace m x st :
  exists evs,
    trace (broadcastMessage m x st)
    = trace st ++ fanout_events m x (getConnections st) ++ evs.
Proof.
  apply (broadcast_ind (fun m x s s' =>
    exists evs, trace s' = trace s ++ fanout_events m x (getConnections s) ++ evs)).
  - intros m' x' s _. exists []. now rewrite fanout_trace, app_nil_r.
  - intros m' x' s s' _ s1 [evs H]. rewrite H. subst s1.
    rewrite fanout_trace. rewrite <- app_assoc. eauto.
Qed.

Lemma broadcastMessage_connections_elem m x st c :
  c ∈ open_connections (broadcastMessage m x st) -> c ∈ open_connections st.
Proof.
  apply (broadcast_ind (fun _ _ s s' =>
    c ∈ open_connections s' -> c ∈ open_connections s)).
  - intros m' x' s _. apply fanout_connections_elem.
  - intros m' x' s s' _ s1 H Hc. eapply fanout_connections_elem. eauto.
Qed.

Lemma fanout_events_In m x cs c :
  c ∈ cs -> is_excluded x c = false -> healthy c = true ->
  In (Sent (conn_id c) m) (fanout_events m x cs).
Proof.
  intros Hc Hx Hh. unfold fanout_events. apply in_flat_map.
  exists c. split; [now apply list_elem_of_In|].
  rewrite Hx, Hh. now left.
Qed.

(** Every healthy channel that is open when a broadcast starts, and is
    not the excluded one, is sent the message. *)
Lemma broadcastMessage_delivers m x st c :
  c ∈ getConnections st -> is_excluded x c = false -> healthy c = true ->
  exists evs,
    trace (broadcastMessage m x st) = trace st ++ evs
    /\ In (Sent (conn_id c) m) evs.
Proof.
  intros Hc Hx Hh. destruct (broadcastMessage_trace m x st) as [evs H].
  exists (fanout_events m x (getConnections st) ++ evs). split; [exact H|].
  apply in_or_app. left. now apply fanout_events_In.
Qed.

Lemma find_connection_unique st target :
  NoDup (conn_id <$> getConnections st) ->
  target ∈ getConnections st ->
  find_connection (conn_id target) st = Some target.
Proof.
  unfold find_connection, getConnections.
  induction (open_connections st) as [|c cs IH]; intros Hnd Hin.
  - now apply elem_of_nil in Hin.
  - simpl. rewrite fmap_cons in Hnd. apply NoDup_cons in Hnd as [Hc Hnd].
    apply elem_of_cons in Hin as [->|Hin].
    + now rewrite String.eqb_refl.
    + destruct (String.eqb_spec (conn_id c) (conn_id target)) as [E|_];
        [|now apply IH].
      exfalso. apply Hc. rewrite E. now apply list_elem_of_fmap_2.
Qed.

Lemma find_connection_None st id :
  (forall c, c ∈ getConnections st -> conn_id c <> id) ->
  find_connection id st = None.
Proof.
  unfold find_connection, getConnections.
  induction (open_connections st) as [|c cs IH]; intros H; [reflexivity|].
  simpl. destruct (String.eqb_spec (conn_id c) id) as [E|_].
  - exfalso. apply (H c); [left|exact E].
  - apply IH. intros c' Hc'. apply H. now right.
Qed.

(** ** Broadcast: what it does *)

Lemma broadcast_event_mono (Q : ServerMessage -> Prop) cs cs' ev :
  (forall c, c ∈ cs -> c ∈ cs') ->
  broadcast_event Q cs ev -> broadcast_event Q cs' ev.
Proof.
  intros Hsub. destruct ev as [i m|i code|]; simpl; [| |tauto];
    intros [H (c & Hc & Hrest)]; split; try exact H;
    exists c; split; auto.
Qed.

Lemma fanout_events_spec (Q : ServerMessage -> Prop) m x cs ev :
  Q m -> In ev (fanout_events m x cs) -> broadcast_event Q cs ev.
Proof.
  intros HQ (c & Hc & Hev)%in_flat_map.
  apply list_elem_of_In in Hc.
  destruct (is_excluded x c); [destruct Hev|].
  destruct (healthy c) eqn:Hh; destruct Hev as [<-|[]]; simpl; eauto 6.
Qed.

Lemma fanout_getMeetingId m x cs st :
  getMeetingId (fanout m x cs st).2 = getMeetingId st.
Proof.
  unfold getMeetingId, get_string.
  destruct (fanout_storage_cases m x cs st "meetingId") as [->|[H _]];
    [reflexivity|discriminate H].
Qed.

(** Everything a broadcast appends to the trace is the message, or a
    roster message built in a later round, sent on a healthy channel, or
    the closing of a broken one. *)
Lemma broadcastMessage_events (Q : ServerMessage -> Prop) m x st :
  Q m ->
  (forall s, getMeetingId s = getMeetingId st -> Q (roomStateMessage s)) ->
  exists evs,
    trace (broadcastMessage m x st) = trace st ++ evs
    /\ forall ev, In ev evs -> broadcast_event Q (getConnections st) ev.
Proof.
  revert m x st.
  apply (broadcast_ind (fun m x s s' =>
    Q m ->
    (forall s0, getMeetingId s0 = getMeetingId s -> Q (roomStateMessage s0)) ->
    exists evs,
      trace s' = trace s ++ evs
      /\ forall ev, In ev evs -> broadcast_event Q (getConnections s) ev)).
  - intros m x s _ HQ _. exists (fanout_events m x (getConnections s)).
    split; [apply fanout_trace|]. intros ev. now apply fanout_events_spec.
  - intros m x s s' _ s1 IH HQ HQr.
    destruct IH as (evs & Ht & Hev).
    + apply HQr. apply fanout_getMeetingId.
    + intros s0 Hs0. apply HQr. rewrite Hs0. apply fanout_getMeetingId.
    + exists (fanout_events m x (getConnections s) ++ evs). split.
      * rewrite Ht. subst s1. rewrite fanout_trace. now rewrite app_assoc.
      * intros ev [Hin|Hin]%in_app_or.
        -- now apply (fanout_events_spec Q m x).
        -- eapply broadcast_event_mono; [|now apply Hev].
           intros c. apply fanout_connections_elem.
Qed.

Lemma fanout_deletes m x cs st k :
  storage (fanout m x cs st).2 !! k = storage st !! k
  \/ (storage (fanout m x cs st).2 !! k = None
      /\ exists c, c ∈ cs /\ healthy c = false /\ k = session_key (conn_id c)).
Proof.
  rewrite fanout_storage.
  destruct (existsb (fun c => fails x c && _) cs) eqn:E; [right|now left].
  apply existsb_exists in E as (c & Hc & [Hf Hk%String.eqb_eq]%andb_true_iff).
  split; [reflexivity|]. exists c. apply list_elem_of_In in Hc.
  unfold fails in Hf. apply andb_true_iff in Hf as [_ Hf].
  apply negb_true_iff in Hf. auto.
Qed.

Lemma fanout_closes m x cs st c :
  c ∈ open_connections st ->
  c ∈ open_connections (fanout m x cs st).2
  \/ exists c', c' ∈ cs /\ healthy c' = false /\ conn_id c' = conn_id c.
Proof.
  intros Hc. rewrite fanout_connections, list_elem_of_filter.
  destruct (decide (Forall
    (fun c0 => fails x c0 = true -> conn_id c <> conn_id c0) cs))
    as [Hall|Hex]; [left; auto|right].
  apply not_Forall_Exists in Hex; [|intros ?; apply _].
  apply Exists_exists in Hex as (c' & Hc' & Hf). simpl in Hf.
  destruct (fails x c') eqn:Hfc'.
  - exists c'. split; [exact Hc'|].
    unfold fails in Hfc'. apply andb_true_iff in Hfc' as [_ Hh].
    apply negb_true_iff in Hh. split; [exact Hh|].
    destruct (decide (conn_id c' = conn_id c)) as [E|N]; [exact E|].
    exfalso. apply Hf. intros _. congruence.
  - exfalso. apply Hf. intros [=].
Qed.

(** A key a broadcast deletes is the session key of a broken channel. *)
Lemma broadcastMessage_deletes m x st k :
  storage (broadcastMessage m x st) !! k = storage st !! k
  \/ (storage (broadcastMessage m x st) !! k = None
      /\ exists c, c ∈ getConnections st /\ healthy c = false
                   /\ k = session_key (conn_id c)).
Proof.
  apply (broadcast_ind (fun _ _ s s' =>
    storage s' !! k = storage s !! k
    \/ (storage s' !! k = None
        /\ exists c, c ∈ getConnections s /\ healthy c = false
                     /\ k = session_key (conn_id c)))).
  - intros m' x' s _. apply fanout_deletes.
  - intros m' x' s s' _ s1 [IH|(Hn & c & Hc & Hh & Hk)].
    + destruct (fanout_deletes m' x' (getConnections s) s k) as [H|[H Hex]].
      * left. now rewrite IH.
      * right. split; [|exact Hex]. now rewrite IH.
    + right. split; [exact Hn|]. exists c. split; [|auto].
      eapply fanout_connections_elem. exact Hc.
Qed.

(** A channel a broadcast closes has the id of a broken channel. *)
Lemma broadcastMessage_closes m x st c :
  c ∈ getConnections st ->
  c ∈ getConnections (broadcastMessage m x st)
  \/ exists c', c' ∈ getConnections st /\ healthy c' = false
               /\ conn_id c' = conn_id c.
Proof.
  revert c.
  apply (broadcast_ind (fun _ x s s' =>
    forall c, c ∈ getConnections s ->
    c ∈ getConnections s'
    \/ exists c', c' ∈ getConnections s /\ healthy c' = false
                 /\ conn_id c' = conn_id c)).
  - intros m' x' s _ c Hc. now apply fanout_closes.
  - intros m' x' s s' Hq s1 IH c Hc.
    destruct (fanout_closes m' x' (getConnections s) s c Hc) as [Hin|Hout];
      [|now right].
    destruct (IH c Hin) as [H|(c' & Hc' & Hh & Hid)]; [now left|right].
    exists c'. split; [|auto]. eapply fanout_connections_elem. exact Hc'.
Qed.

Lemma fanout_events_healthy m cs :
  (forall c, c ∈ cs -> healthy c = true) ->
  fanout_events m None cs = (fun c => Sent (conn_id c) m) <$> cs.
Proof.
  induction cs as [|c cs IH]; intros H; [reflexivity|].
  unfold fanout_events in *. simpl. rewrite (H c) by left. simpl.
  f_equal. apply IH. intros c' Hc'. apply H. now right.
Qed.

Lemma state_eq s s' :
  storage s = storage s' -> alarm_at s = alarm_at s' ->
  open_connections s = open_connections s' -> trace s = trace s' -> s = s'.
Proof. destruct s, s'; simpl; congruence. Qed.

(** When no channel is broken, a broadcast is one round of sends. *)
Lemma broadcastMessage_healthy m st :
  (forall c, c ∈ getConnections st -> healthy c = true) ->
  broadcastMessage m None st
  = mkState (storage st) (alarm_at st) (open_connections st)
      (trace st ++ ((fun c => Sent (conn_id c) m) <$> getConnections st)).
Proof.
  intros Hh.
  assert (Hq : existsb (fails None) (getConnections st) = false).
  { destruct (existsb (fails None) (getConnections st)) eqn:E; [|reflexivity].
    apply existsb_exists in E as (c & Hc%list_elem_of_In & Hf).
    unfold fails in Hf. rewrite (Hh c Hc) in Hf. discriminate. }
  rewrite broadcastMessage_unfold. cbv zeta. rewrite fanout_quit, Hq.
  apply state_eq; simpl.
  - now apply fanout_no_failure_storage.
  - apply fanout_alarm.
  - now apply fanout_no_failure_connections.
  - rewrite fanout_trace. now rewrite fanout_events_healthy.
Qed.

(** After a broadcast, every channel still open has been sent the roster
    message of the final state. *)
Lemma roomStateMessage_ext s s' :
  storage s = storage s' -> roomStateMessage s = roomStateMessage s'.
Proof.
  intros H. unfold roomStateMessage, getMeetingId, get_string.
  rewrite H. now rewrite (getUsers_ext s s' H).
Qed.

Lemma broadcastMessage_final m x st :
  x = None -> m = roomStateMessage st ->
  forall c, c ∈ getConnections (broadcastMessage m x st) ->
  exists evs,
    trace (broadcastMessage m x st) = trace st ++ evs
    /\ In (Sent (conn_id c) (roomStateMessage (broadcastMessage m x st))) evs.
Proof.
  revert m x st.
  apply (broadcast_ind (fun m x s s' =>
    x = None -> m = roomStateMessage s ->
    forall c, c ∈ getConnections s' ->
    exists evs, trace s' = trace s ++ evs
                /\ In (Sent (conn_id c) (roomStateMessage s')) evs)).
  - intros m' x' s Hq -> -> c Hc.
    rewrite fanout_quit in Hq.
    unfold getConnections in Hc at 1.
    rewrite (fanout_no_failure_connections _ _ _ _ Hq) in Hc.
    exists (fanout_events (roomStateMessage s) None (getConnections s)).
    split; [apply fanout_trace|].
    rewrite (roomStateMessage_ext _ s (fanout_no_failure_storage _ _ _ _ Hq)).
    apply fanout_events_In; [exact Hc|reflexivity|].
    destruct (healthy c) eqn:Hh; [reflexivity|].
    assert (existsb (fails None) (getConnections s) = true); [|congruence].
    apply existsb_exists. exists c. split; [now apply list_elem_of_In|].
    unfold fails. now rewrite Hh.
  - intros m' x' s s' _ s1 IH _ _ c Hc.
    destruct (IH eq_refl eq_refl c Hc) as (evs & Ht & Hin).
    exists (fanout_events m' x' (getConnections s) ++ evs). split.
    + rewrite Ht. subst s1. rewrite fanout_trace. now rewrite app_assoc.
    + apply in_or_app. now right.
Qed.

Lemma broadcastRoomState_final st c :
  c ∈ getConnections (broadcastRoomState st) ->
  exists evs,
    trace (broadcastRoomState st) = trace st ++ evs
    /\ In (Sent (conn_id c) (roomStateMessage (broadcastRoomState st))) evs.
Proof. now apply broadcastMessage_final. Qed.

(** ** The sweep *)

Lemma keeps_room_refl st : keeps_room st st.
Proof. repeat split. exists []. now rewrite app_nil_r. Qed.

Lemma keeps_room_trans s1 s2 s3 :
  keeps_room s1 s2 -> keeps_room s2 s3 -> keeps_room s1 s3.
Proof.
  intros (Ha & Hs & e1 & Ht) (Ha' & Hs' & e2 & Ht'). repeat split.
  - congruence.
  - intros k Hk. rewrite Hs', Hs; auto.
  - exists (e1 ++ e2). now rewrite Ht', Ht, app_assoc.
Qed.

Lemma keeps_room_broadcast m x st : keeps_room st (broadcastMessage m x st).
Proof.
  repeat split.
  - apply broadcastMessage_alarm.
  - intros k Hk. now apply broadcastMessage_storage_other.
  - destruct (broadcastMessage_trace m x st) as [evs H]. eauto.
Qed.

Lemma keeps_room_delete k st :
  starts_with "session-" k = true -> keeps_room st (storage_delete k st).
Proof.
  intros Hk. repeat split.
  - intros k' Hk'. unfold storage_delete. simpl.
    apply lookup_delete_ne. congruence.
  - exists []. simpl. now rewrite app_nil_r.
Qed.

Lemma keeps_room_close c code st : keeps_room st (close c code st).
Proof. repeat split. now exists [Closed (conn_id c) code]. Qed.

Lemma keeps_room_sweep_user now cs acc entry :
  starts_with "session-" entry.1 = true ->
  keeps_room acc.2 (sweep_user now cs acc entry).2.
Proof.
  intros Hk. destruct acc as [removed st]. unfold sweep_user. simpl.
  destruct (timed_out _ now); simpl; [|apply keeps_room_refl].
  set (st1 := userLeftNotification (replace_first "session-" entry.1) st).
  assert (H1 : keeps_room st st1) by apply keeps_room_broadcast.
  assert (H2 : keeps_room st1 (storage_delete entry.1 st1))
    by now apply keeps_room_delete.
  apply (keeps_room_trans _ _ _ H1).
  destruct (find _ cs); [|exact H2].
  apply (keeps_room_trans _ _ _ H2). apply keeps_room_close.
Qed.

Lemma keeps_room_sweep now cs entries : forall acc,
  Forall (fun entry => starts_with "session-" entry.1 = true) entries ->
  keeps_room acc.2 (fold_left (sweep_user now cs) entries acc).2.
Proof.
  induction entries as [|e entries IH]; intros acc Hall; simpl.
  - apply keeps_room_refl.
  - apply Forall_cons in Hall as [He Hall].
    apply (keeps_room_trans _ (sweep_user now cs acc e).2).
    + now apply keeps_room_sweep_user.
    + now apply IH.
Qed.

Lemma getUsers_keys st :
  Forall (fun entry : string * User => starts_with "session-" entry.1 = true)
    (map_to_list (getUsers st)).
Proof.
  apply Forall_forall. intros [k u] Hin. simpl.
  apply elem_of_map_to_list in Hin. rewrite getUsers_lookup in Hin.
  destruct (starts_with "session-" k); [reflexivity|discriminate].
Qed.

Lemma keeps_room_getMeetingId st st' :
  keeps_room st st' -> getMeetingId st' = getMeetingId st.
Proof.
  intros (_ & Hs & _). unfold getMeetingId, get_string. now rewrite Hs.
Qed.

Lemma keeps_room_getRoomCode st st' :
  keeps_room st st' -> getRoomCode st' = getRoomCode st.
Proof.
  intros (_ & Hs & _). unfold getRoomCode, get_string. now rewrite Hs.
Qed.

Lemma getMeeting_cleared env mid st :
  getMeeting env mid (storage_deleteAll st) = None.
Proof. reflexivity. Qed.

Lemma endMeeting_storage env mid st : storage (endMeeting env mid st) = ∅.
Proof.
  unfold endMeeting. destruct (getRoomCode st) as [rc|]; [|reflexivity].
  now destruct (negb (truthy (Some rc))).
Qed.

Lemma endMeeting_alarm env mid st :
  alarm_at (endMeeting env mid st) = alarm_at st.
Proof.
  unfold endMeeting. destruct (getRoomCode st) as [rc|]; [|reflexivity].
  now destruct (negb (truthy (Some rc))).
Qed.

Lemma endMeeting_trace env mid st :
  exists evs, trace (endMeeting env mid st) = trace st ++ evs.
Proof.
  unfold endMeeting. destruct (getRoomCode st) as [rc|].
  - destruct (negb (truthy (Some rc))); simpl.
    + exists []. now rewrite app_nil_r.
    + eauto.
  - exists []. simpl. now rewrite app_nil_r.
Qed.

(** The report of [endMeeting] always carries a peak of 0: the meeting
    is looked up after the store has been cleared. *)
Lemma endMeeting_report env mid st rc :
  getRoomCode st = Some rc -> rc <> "" ->
  trace (endMeeting env mid st) = trace st ++ [StatsReport rc 0 "done"].
Proof.
  intros Hrc Hne. unfold endMeeting. rewrite Hrc. simpl.
  destruct (String.eqb_spec rc ""); [contradiction|reflexivity].
Qed.

(** The two ways a sweep ends: the meeting is ended, or the room is
    kept. *)
Lemma cleanupOldConnections_cases env now st :
  exists st1,
    keeps_room st st1
    /\ (cleanupOldConnections env now st).1 = size (getUsers st1)
    /\ ((exists mid,
           getMeetingId st = Some mid /\ mid <> ""
           /\ size (getUsers st1) = 0%nat
           /\ (cleanupOldConnections env now st).2 = endMeeting env mid st1)
        \/ ((truthy (getMeetingId st) = false \/ size (getUsers st1) <> 0%nat)
            /\ keeps_room st1 (cleanupOldConnections env now st).2)).
Proof.
  unfold cleanupOldConnections.
  pose proof (keeps_room_sweep now (getConnections st)
                (map_to_list (getUsers st)) (0%nat, st) (getUsers_keys st))
    as Hk.
  destruct (fold_left _ _ _) as [removed st1]. simpl in *.
  exists st1. split; [exact Hk|]. split; [reflexivity|].
  assert (Hrest : keeps_room st1
            (if (0 <? removed)%nat then broadcastRoomState st1 else st1)).
  { destruct (0 <? removed)%nat;
      [apply keeps_room_broadcast|apply keeps_room_refl]. }
  destruct (getMeetingId st) as [mid|]; [|right; auto].
  simpl. destruct (String.eqb_spec mid "") as [->|Hne]; simpl.
  - right. auto.
  - destruct (Nat.eqb_spec (size (getUsers st1)) 0) as [Hz|Hnz].
    + left. exists mid. auto.
    + right. auto.
Qed.

Lemma cleanupOldConnections_alarm env now st :
  alarm_at (cleanupOldConnections env now st).2 = alarm_at st.
Proof.
  destruct (cleanupOldConnections_cases env now st)
    as (st1 & (Ha & _) & _ & [(mid & _ & _ & _ & ->)|[_ (Ha' & _)]]).
  - now rewrite endMeeting_alarm.
  - congruence.
Qed.

Lemma cleanupOldConnections_trace env now st :
  exists evs, trace (cleanupOldConnections env now st).2 = trace st ++ evs.
Proof.
  destruct (cleanupOldConnections_cases env now st)
    as (st1 & (_ & _ & e1 & Ht) & _
        & [(mid & _ & _ & _ & ->)|[_ (_ & _ & e2 & Ht')]]).
  - destruct (endMeeting_trace env mid st1) as [e2 Ht'].
    exists (e1 ++ e2). now rewrite Ht', Ht, app_assoc.
  - exists (e1 ++ e2). now rewrite Ht', Ht, app_assoc.
Qed.

(** ** Heartbeat records and the peak report *)

(** No broadcast touches a heartbeat record. *)
Lemma broadcastMessage_heartbeat m x st id :
  storage (broadcastMessage m x st) !! heartbeat_key id
  = storage st !! heartbeat_key id.
Proof. apply broadcastMessage_storage_other. apply starts_with_heartbeat. Qed.

(** A sweep that leaves users in the room touches no heartbeat record,
    whoever it evicts. *)
Lemma cleanupOldConnections_heartbeat env now st id :
  (cleanupOldConnections env now st).1 <> 0%nat ->
  storage (cleanupOldConnections env now st).2 !! heartbeat_key id
  = storage st !! heartbeat_key id.
Proof.
  intros Hnz.
  destruct (cleanupOldConnections_cases env now st)
    as (st1 & (_ & Hs1 & _) & Hcount
        & [(mid & _ & _ & Hz & _)|[_ (_ & Hs2 & _)]]).
  - congruence.
  - rewrite Hs2, Hs1; auto using starts_with_heartbeat.
Qed.

(** Whenever the stored meeting is found by the lifecycle service,
    [trackPeakUserCount] posts the recorded peak, whatever the roster
    and the status are. *)
Lemma trackPeakUserCount_reports env now uuid st mid m :
  getMeetingId st = Some mid -> mid <> "" ->
  getMeeting env mid st = Some m ->
  (trackPeakUserCount env now uuid st).2
  = emit (StatsReport (meeting_roomId m) (peakUserCount m) "started")
      (cleanupOldConnections env now st).2.
Proof.
  intros Hmid Hne Hm. unfold trackPeakUserCount. rewrite Hmid. simpl.
  destruct (String.eqb_spec mid ""); [contradiction|]. simpl.
  rewrite Hm. unfold strict_ne_null. now rewrite orb_true_r.
Qed.

Lemma getUsers_lookup_Some st k u :
  getUsers st !! k = Some u
  <-> starts_with "session-" k = true /\ storage st !! k = Some (VUser u).
Proof.
  rewrite getUsers_lookup. unfold get_user.
  destruct (starts_with "session-" k); [|split; [discriminate|intros [[=] _]]].
  destruct (storage st !! k) as [[s|n|u']|]; simpl; split;
    try discriminate; try (intros [_ H]; discriminate H).
  - intros [= ->]. auto.
  - intros [_ [= ->]]. reflexivity.
Qed.

(** ** What only removes *)

Lemma only_removes_None st st' k :
  only_removes st st' -> storage st !! k = None -> storage st' !! k = None.
Proof. intros (Hs & _) Hk. destruct (Hs k) as [H|H]; congruence. Qed.

Lemma only_removes_refl st : only_removes st st.
Proof. repeat split; auto. exists []. now rewrite app_nil_r. Qed.

Lemma only_removes_trans s1 s2 s3 :
  only_removes s1 s2 -> only_removes s2 s3 -> only_removes s1 s3.
Proof.
  intros (Hs & Hc & e1 & Ht) (Hs' & Hc' & e2 & Ht'). repeat split; auto.
  - intros k. destruct (Hs' k) as [H|H]; [rewrite H; apply Hs|now right].
  - exists (e1 ++ e2). now rewrite Ht', Ht, app_assoc.
Qed.

Lemma only_removes_broadcast m x st : only_removes st (broadcastMessage m x st).
Proof.
  repeat split.
  - intros k. destruct (broadcastMessage_storage m x st k) as [H|[_ H]]; auto.
  - intros c. apply broadcastMessage_connections_elem.
  - destruct (broadcastMessage_trace m x st) as [evs H]. eauto.
Qed.

Lemma only_removes_delete k st : only_removes st (storage_delete k st).
Proof.
  repeat split; auto.
  - intros k'. unfold storage_delete. simpl.
    destruct (decide (k = k')) as [->|Hne];
      [right; apply lookup_delete_eq|left; now rewrite lookup_delete_ne].
  - exists []. simpl. now rewrite app_nil_r.
Qed.

Lemma only_removes_close c code st : only_removes st (close c code st).
Proof.
  repeat split; auto.
  - intros c'. unfold close. simpl. rewrite list_elem_of_filter. tauto.
  - now exists [Closed (conn_id c) code].
Qed.

Lemma only_removes_emit e st : only_removes st (emit e st).
Proof. repeat split; auto. now exists [e]. Qed.

Lemma only_removes_endMeeting env mid st :
  only_removes st (endMeeting env mid st).
Proof.
  repeat split.
  - intros k. right. now rewrite endMeeting_storage, lookup_empty.
  - unfold endMeeting. destruct (getRoomCode st) as [rc|]; [|auto].
    now destruct (negb (truthy (Some rc))).
  - apply endMeeting_trace.
Qed.

Lemma only_removes_sweep_user now cs acc entry :
  only_removes acc.2 (sweep_user now cs acc entry).2.
Proof.
  destruct acc as [removed st]. unfold sweep_user. simpl.
  destruct (timed_out _ now); simpl; [|apply only_removes_refl].
  set (st1 := userLeftNotification (replace_first "session-" entry.1) st).
  assert (H1 : only_removes st st1) by apply only_removes_broadcast.
  assert (H2 : only_removes st1 (storage_delete entry.1 st1))
    by apply only_removes_delete.
  apply (only_removes_trans _ _ _ H1).
  destruct (find _ cs); [|exact H2].
  apply (only_removes_trans _ _ _ H2). apply only_removes_close.
Qed.

Lemma only_removes_sweep now cs entries : forall acc,
  only_removes acc.2 (fold_left (sweep_user now cs) entries acc).2.
Proof.
  induction entries as [|e entries IH]; intros acc; simpl.
  - apply only_removes_refl.
  - apply (only_removes_trans _ (sweep_user now cs acc e).2).
    + apply only_removes_sweep_user.
    + apply IH.
Qed.

(** What only removes can only shrink the roster. *)
Lemma only_removes_getUsers st st' :
  only_removes st st' -> getUsers st' ⊆ getUsers st.
Proof.
  intros (Hs & _). apply map_subseteq_spec. intros k u.
  rewrite !getUsers_lookup_Some. intros [Hk Hl]. split; [exact Hk|].
  destruct (Hs k) as [H|H]; congruence.
Qed.

(** ** The sweep, user by user *)

(** How [cleanupOldConnections] ends, in terms of the state its loop
    leaves. *)
Lemma cleanupOldConnections_unfold env now st :
  (cleanupOldConnections env now st).1 = size (getUsers (swept now st))
  /\ ((exists mid,
         getMeetingId st = Some mid /\ mid <> ""
         /\ size (getUsers (swept now st)) = 0%nat
         /\ (cleanupOldConnections env now st).2
            = endMeeting env mid (swept now st))
      \/ ((truthy (getMeetingId st) = false
           \/ size (getUsers (swept now st)) <> 0%nat)
          /\ ((cleanupOldConnections env now st).2 = swept now st
              \/ (cleanupOldConnections env now st).2
                 = broadcastRoomState (swept now st)))).
Proof.
  unfold cleanupOldConnections, swept.
  destruct (fold_left _ _ _) as [removed st1]. simpl.
  split; [reflexivity|].
  assert (Hrest : (if (0 <? removed)%nat then broadcastRoomState st1 else st1)
                  = st1
                  \/ (if (0 <? removed)%nat then broadcastRoomState st1 else st1)
                     = broadcastRoomState st1)
    by (destruct (0 <? removed)%nat; auto).
  destruct (getMeetingId st) as [mid|]; [|right; auto].
  simpl. destruct (String.eqb_spec mid "") as [->|Hne]; simpl.
  - right. auto.
  - destruct (Nat.eqb_spec (size (getUsers st1)) 0) as [Hz|Hnz].
    + left. exists mid. auto.
    + right. auto.
Qed.

Lemma keeps_room_swept now st : keeps_room st (swept now st).
Proof.
  apply (keeps_room_sweep now (getConnections st) (map_to_list (getUsers st))
           (O, st) (getUsers_keys st)).
Qed.

Lemma only_removes_swept now st : only_removes st (swept now st).
Proof.
  apply (only_removes_sweep now (getConnections st)
           (map_to_list (getUsers st)) (O, st)).
Qed.

Lemma only_removes_cleanup env now st :
  only_removes st (cleanupOldConnections env now st).2.
Proof.
  apply (only_removes_trans _ _ _ (only_removes_swept now st)).
  destruct (cleanupOldConnections_unfold env now st)
    as [_ [(mid & _ & _ & _ & ->)|[_ [->| ->]]]].
  - apply only_removes_endMeeting.
  - apply only_removes_refl.
  - apply only_removes_broadcast.
Qed.

Lemma sweep_user_heartbeat now cs acc entry id :
  starts_with "session-" entry.1 = true ->
  get_number (heartbeat_key id) (sweep_user now cs acc entry).2
  = get_number (heartbeat_key id) acc.2.
Proof.
  intros Hk. destruct (keeps_room_sweep_user now cs acc entry Hk) as (_ & Hs & _).
  unfold get_number. now rewrite Hs by apply starts_with_heartbeat.
Qed.

(** An entry whose heartbeat has timed out loses its record, and no
    channel with its id stays open. *)
Lemma sweep_user_evicts now cs acc entry :
  timed_out (get_number (heartbeat_key (replace_first "session-" entry.1)) acc.2)
    now = true ->
  (forall c, c ∈ open_connections acc.2 -> c ∈ cs) ->
  let st' := (sweep_user now cs acc entry).2 in
  storage st' !! entry.1 = None
  /\ (forall c, c ∈ open_connections st' ->
        conn_id c <> replace_first "session-" entry.1)
  /\ ((exists c, c ∈ cs /\ conn_id c = replace_first "session-" entry.1) ->
      exists evs, trace st' = trace acc.2 ++ evs
                  /\ In (Closed (replace_first "session-" entry.1) 1011) evs).
Proof.
  intros Ht Hsub. destruct acc as [removed st]. unfold sweep_user. simpl in *.
  rewrite Ht. simpl.
  set (id := replace_first "session-" entry.1) in *.
  set (st1 := userLeftNotification id st).
  destruct (only_removes_broadcast (S_userLeftNotification id) None st)
    as (_ & Hc1 & e1 & Ht1). fold (userLeftNotification id st) in Hc1, Ht1.
  fold st1 in Hc1, Ht1.
  destruct (find (fun c => String.eqb (conn_id c) id) cs) as [c'|] eqn:Hf.
  - apply find_some in Hf as [Hin Hid]. apply String.eqb_eq in Hid.
    simpl. split; [apply lookup_delete_eq|]. split.
    + intros c. rewrite list_elem_of_filter. intros [Hne _]. congruence.
    + intros _. exists (e1 ++ [Closed id 1011]). split.
      * rewrite Ht1, Hid. now rewrite app_assoc.
      * apply in_or_app. right. now left.
  - simpl. split; [apply lookup_delete_eq|]. split.
    + intros c Hc. apply Hc1, Hsub in Hc.
      apply list_elem_of_In in Hc.
      pose proof (find_none _ _ Hf c Hc) as Hn. simpl in Hn.
      now apply String.eqb_neq in Hn.
    + intros (c & Hc & Hid). apply list_elem_of_In in Hc.
      pose proof (find_none _ _ Hf c Hc) as Hn. simpl in Hn.
      apply String.eqb_neq in Hn. contradiction.
Qed.

Lemma sweep_evicts now cs entries : forall acc key u,
  Forall (fun entry : string * User => starts_with "session-" entry.1 = true)
    entries ->
  (key, u) ∈ entries ->
  timed_out (get_number (heartbeat_key (replace_first "session-" key)) acc.2)
    now = true ->
  (forall c, c ∈ open_connections acc.2 -> c ∈ cs) ->
  let st' := (fold_left (sweep_user now cs) entries acc).2 in
  storage st' !! key = None
  /\ (forall c, c ∈ open_connections st' ->
        conn_id c <> replace_first "session-" key)
  /\ ((exists c, c ∈ cs /\ conn_id c = replace_first "session-" key) ->
      exists evs, trace st' = trace acc.2 ++ evs
                  /\ In (Closed (replace_first "session-" key) 1011) evs).
Proof.
  induction entries as [|e entries IH]; intros acc key u Hall Hin Ht Hsub;
    [now apply elem_of_nil in Hin|].
  apply Forall_cons in Hall as [He Hall]. simpl.
  destruct (only_removes_sweep_user now cs acc e) as (_ & Hc1 & e1 & Ht1).
  apply elem_of_cons in Hin as [<-|Hin].
  - destruct (sweep_user_evicts now cs acc (key, u) Ht Hsub)
      as (Hs & Hc & Hev). simpl in *.
    pose proof (only_removes_sweep now cs entries
                  (sweep_user now cs acc (key, u))) as Hrem.
    destruct Hrem as (Hs2 & Hc2 & e2 & Ht2).
    split; [destruct (Hs2 key) as [H|H]; congruence|]. split; [intros c Hin; now apply Hc, Hc2|].
    intros Hex. destruct (Hev Hex) as (evs & Hte & Hine).
    exists (evs ++ e2). split; [now rewrite Ht2, Hte, app_assoc|].
    apply in_or_app. now left.
  - destruct (IH (sweep_user now cs acc e) key u Hall Hin) as (Hs & Hc & Hev).
    + now rewrite sweep_user_heartbeat.
    + intros c Hc. now apply Hsub, Hc1.
    + split; [exact Hs|]. split; [exact Hc|].
      intros Hex. destruct (Hev Hex) as (evs & Hte & Hine).
      exists (e1 ++ evs). split; [now rewrite Hte, Ht1, app_assoc|].
      apply in_or_app. now right.
Qed.

(** An entry that has not timed out, and whose key is not the session
    key of a broken channel, keeps its record. *)
Lemma sweep_user_survives now cs acc entry k :
  starts_with "session-" entry.1 = true ->
  (forall c, c ∈ open_connections acc.2 -> healthy c = false ->
             session_key (conn_id c) <> k) ->
  (entry.1 = k ->
   timed_out (get_number (heartbeat_key (replace_first "session-" k)) acc.2)
     now = false) ->
  storage (sweep_user now cs acc entry).2 !! k = storage acc.2 !! k.
Proof.
  intros He Hbroken Hfresh. destruct acc as [removed st].
  unfold sweep_user. simpl in *.
  destruct (timed_out
              (get_number (heartbeat_key (replace_first "session-" entry.1)) st)
              now) eqn:Ht; simpl; [|reflexivity].
  assert (Hne : entry.1 <> k).
  { intros E. rewrite E in Ht. rewrite (Hfresh E) in Ht. discriminate. }
  set (id := replace_first "session-" entry.1).
  assert (Hb : storage (userLeftNotification id st) !! k = storage st !! k).
  { destruct (broadcastMessage_deletes (S_userLeftNotification id) None st k)
      as [H|(_ & c & Hc & Hh & Hk)]; [exact H|].
    exfalso. now apply (Hbroken c Hc Hh). }
  destruct (find _ cs); simpl; now rewrite lookup_delete_ne.
Qed.

Lemma sweep_survives now cs entries : forall acc k,
  Forall (fun entry : string * User => starts_with "session-" entry.1 = true)
    entries ->
  (forall c, c ∈ open_connections acc.2 -> healthy c = false ->
             session_key (conn_id c) <> k) ->
  timed_out (get_number (heartbeat_key (replace_first "session-" k)) acc.2)
    now = false ->
  storage (fold_left (sweep_user now cs) entries acc).2 !! k
  = storage acc.2 !! k.
Proof.
  induction entries as [|e entries IH]; intros acc k Hall Hbroken Hfresh;
    [reflexivity|].
  apply Forall_cons in Hall as [He Hall]. simpl.
  destruct (only_removes_sweep_user now cs acc e) as (_ & Hc1 & _).
  rewrite IH; [|exact Hall| |].
  - now apply sweep_user_survives.
  - intros c Hc. apply Hbroken. now apply Hc1.
  - now rewrite sweep_user_heartbeat.
Qed.


Lemma only_removes_after_sweep env now st :
  only_removes (swept now st) (cleanupOldConnections env now st).2.
Proof.
  destruct (cleanupOldConnections_unfold env now st)
    as [_ [(mid & _ & _ & _ & ->)|[_ [->| ->]]]].
  - apply only_removes_endMeeting.
  - apply only_removes_refl.
  - apply only_removes_broadcast.
Qed.

Lemma get_user_Some k st u :
  get_user k st = Some u <-> storage st !! k = Some (VUser u).
Proof.
  unfold get_user. destruct (storage st !! k) as [[s|n|u']|]; simpl;
    split; try discriminate; congruence.
Qed.

Lemma connection_unique (cs : list Connection) c c' :
  NoDup (conn_id <$> cs) -> c ∈ cs -> c' ∈ cs -> conn_id c = conn_id c' ->
  c = c'.
Proof.
  induction cs as [|a cs IH]; intros Hnd Hc Hc' Hid;
    [now apply elem_of_nil in Hc|].
  rewrite fmap_cons in Hnd. apply NoDup_cons in Hnd as [Ha Hnd].
  apply elem_of_cons in Hc as [->|Hc]; apply elem_of_cons in Hc' as [->|Hc'];
    auto.
  - exfalso. apply Ha. rewrite Hid. now apply list_elem_of_fmap_2.
  - exfalso. apply Ha. rewrite <- Hid. now apply list_elem_of_fmap_2.
Qed.

(** Whatever a broadcast sends, it sends on a channel that was open. *)
Lemma broadcastMessage_recipients m x st :
  exists evs,
    trace (broadcastMessage m x st) = trace st ++ evs
    /\ forall i m', In (Sent i m') evs ->
         exists c, c ∈ getConnections st /\ conn_id c = i /\ healthy c = true.
Proof.
  destruct (broadcastMessage_events (fun _ => True) m x st I (fun _ _ => I))
    as (evs & Ht & Hev).
  exists evs. split; [exact Ht|].
  intros i m' Hin. destruct (Hev _ Hin) as [_ H]. exact H.
Qed.

(** ** What a client message may touch *)

Lemma sender_frame_refl id st : sender_frame id st st.
Proof. repeat split; auto. exists []. now rewrite app_nil_r. Qed.

Lemma sender_frame_trans id s1 s2 s3 :
  sender_frame id s1 s2 -> sender_frame id s2 s3 -> sender_frame id s1 s3.
Proof.
  intros (Ha & Hs & Hc & e1 & Ht) (Ha' & Hs' & Hc' & e2 & Ht').
  repeat split; auto; try congruence.
  - intros k Hk Hne. rewrite Hs', Hs; auto.
  - exists (e1 ++ e2). now rewrite Ht', Ht, app_assoc.
Qed.

Lemma sender_frame_broadcast id m x st :
  sender_frame id st (broadcastMessage m x st).
Proof.
  destruct (keeps_room_broadcast m x st) as (Ha & Hs & He).
  destruct (only_removes_broadcast m x st) as (_ & Hc & _).
  repeat split; auto.
Qed.

Lemma sender_frame_close id c code st : sender_frame id st (close c code st).
Proof.
  destruct (only_removes_close c code st) as (_ & Hc & He).
  repeat split; auto.
Qed.

Lemma sender_frame_emit id e st : sender_frame id st (emit e st).
Proof. repeat split; auto. now exists [e]. Qed.

Lemma sender_frame_put_session id k v st :
  starts_with "session-" k = true -> sender_frame id st (storage_put k v st).
Proof.
  intros Hk. repeat split; auto.
  - intros k' Hk' _. unfold storage_put. simpl.
    apply lookup_insert_ne. congruence.
  - exists []. simpl. now rewrite app_nil_r.
Qed.

Lemma sender_frame_delete_session id k st :
  starts_with "session-" k = true -> sender_frame id st (storage_delete k st).
Proof.
  intros Hk. repeat split; auto.
  - intros k' Hk' _. unfold storage_delete. simpl.
    apply lookup_delete_ne. congruence.
  - exists []. simpl. now rewrite app_nil_r.
Qed.

Lemma sender_frame_put_heartbeat id v st :
  sender_frame id st (storage_put (heartbeat_key id) v st).
Proof.
  repeat split; auto.
  - intros k' _ Hne. unfold storage_put. simpl.
    apply lookup_insert_ne. congruence.
  - exists []. simpl. now rewrite app_nil_r.
Qed.

Lemma sender_frame_delete_heartbeat id st :
  sender_frame id st (storage_delete (heartbeat_key id) st).
Proof.
  repeat split; auto.
  - intros k' _ Hne. unfold storage_delete. simpl.
    apply lookup_delete_ne. congruence.
  - exists []. simpl. now rewrite app_nil_r.
Qed.

Lemma sender_frame_sendMessage id c m st :
  sender_frame id st (final (sendMessage c m st)).
Proof.
  unfold sendMessage, send. destruct (healthy c); simpl;
    [apply sender_frame_emit|apply sender_frame_refl].
Qed.

Lemma sender_frame_handle connection data now st :
  sender_frame (conn_id connection) st (final (handle connection data now st)).
Proof.
  set (id := conn_id connection).
  destruct data as [|user|entry sid|to message|j| | |tag]; simpl; fold id;
    try apply sender_frame_refl.
  - eapply sender_frame_trans; [apply sender_frame_close|].
    eapply sender_frame_trans; [apply sender_frame_broadcast|].
    eapply sender_frame_trans;
      [apply sender_frame_delete_session, starts_with_session|].
    eapply sender_frame_trans; [apply sender_frame_delete_heartbeat|].
    apply sender_frame_broadcast.
  - eapply sender_frame_trans;
      [apply sender_frame_put_session, starts_with_session|].
    apply sender_frame_broadcast.
  - destruct (find_connection to st) as [c|];
      destruct (get_user (session_key id) st); simpl;
      try apply sender_frame_refl.
    apply sender_frame_sendMessage.
  - destruct (find_connection j st) as [c|].
    + destruct (get_user (session_key j) st) as [other|]; simpl;
        [|apply sender_frame_refl].
      eapply sender_frame_trans;
        [apply (sender_frame_put_session id (session_key j)),
           starts_with_session|].
      unfold sendMessage, send. destruct (healthy c); simpl;
        [|apply sender_frame_refl].
      eapply sender_frame_trans; [apply sender_frame_emit|].
      apply sender_frame_broadcast.
    + destruct (get_user (session_key id) st); simpl;
        apply sender_frame_refl.
  - apply sender_frame_put_heartbeat.
Qed.

(** ** Paths, and closing every channel *)

Lemma indexOf_Some x l n :
  indexOf x l = Some n
  <-> exists pre post, l = pre ++ x :: post /\ (x ∉ pre) /\ length pre = n.
Proof.
  revert n. induction l as [|y l IH]; intros n; simpl.
  - split; [discriminate|]. intros (pre & post & H & _). now destruct pre.
  - destruct (String.eqb_spec y x) as [->|Hne].
    + split.
      * intros [= <-]. exists [], l. repeat split. apply not_elem_of_nil.
      * intros (pre & post & H & Hpre & <-). destruct pre as [|a pre];
          [reflexivity|].
        injection H as -> _. exfalso. apply Hpre. left.
    + destruct (indexOf x l) as [m|] eqn:E; simpl.
      * split.
        -- intros [= <-]. destruct (proj1 (IH m) eq_refl)
             as (pre & post & -> & Hpre & <-).
           exists (y :: pre), post. repeat split.
           rewrite not_elem_of_cons. auto.
        -- intros (pre & post & H & Hpre & <-). destruct pre as [|a pre];
             [injection H as -> _; contradiction|].
           injection H as -> ->. simpl. f_equal.
           apply not_elem_of_cons in Hpre as [_ Hpre].
           assert (Some m = Some (length pre)) as [= ->]; [|reflexivity].
           apply IH. eauto.
      * split; [discriminate|].
        intros (pre & post & H & Hpre & <-). destruct pre as [|a pre];
          [injection H as -> _; contradiction|].
        injection H as -> ->.
        apply not_elem_of_cons in Hpre as [_ Hpre].
        assert (None = Some (length pre)) as [=]. apply IH. eauto.
Qed.

Lemma close_all code cs : forall st,
  let st' := fold_left (fun s c => close c code s) cs st in
  storage st' = storage st
  /\ alarm_at st' = alarm_at st
  /\ trace st' = trace st ++ ((fun c => Closed (conn_id c) code) <$> cs)
  /\ forall c, c ∈ open_connections st' ->
       c ∈ open_connections st /\ forall c0, c0 ∈ cs -> conn_id c <> conn_id c0.
Proof.
  induction cs as [|a cs IH]; intros st; simpl.
  - repeat split; auto.
    + now rewrite app_nil_r.
    + intros c0 H0. now apply elem_of_nil in H0.
  - destruct (IH (close a code st)) as (Hs & Ha & Ht & Hc).
    split; [exact Hs|]. split; [exact Ha|]. split.
    + rewrite Ht. simpl. now rewrite <- app_assoc.
    + intros c Hin. destruct (Hc c Hin) as [Hin' Hne].
      unfold close in Hin'. simpl in Hin'.
      apply list_elem_of_filter in Hin' as [Hna Hin'].
      split; [exact Hin'|].
      intros c0 H0. apply elem_of_cons in H0 as [->|H0]; auto.
Qed.

(** ** The peak bookkeeping *)

(** [trackPeakUserCount] creates the meeting id when there is none,
    sweeps, and at most adds one report. *)
Lemma trackPeakUserCount_state env now uuid st :
  let st' := if truthy (getMeetingId st) then st
             else storage_put "meetingId" (VString uuid) st in
  (trackPeakUserCount env now uuid st).2 = (cleanupOldConnections env now st').2
  \/ exists room peak,
       (trackPeakUserCount env now uuid st).2
       = emit (StatsReport room peak "started")
           (cleanupOldConnections env now st').2.
Proof.
  unfold trackPeakUserCount, createMeeting.
  destruct (getMeetingId st) as [mid|] eqn:Hmid; simpl.
  - destruct (negb (String.eqb mid "")); simpl.
    + destruct (getMeeting env mid st) as [m|]; [|now left].
      unfold strict_ne_null. rewrite orb_true_r. simpl. right. eauto.
    + destruct (getMeeting env uuid _) as [m|]; [|now left].
      unfold strict_ne_null. rewrite orb_true_r. simpl. right. eauto.
  - destruct (getMeeting env uuid _) as [m|]; [|now left].
    unfold strict_ne_null. rewrite orb_true_r. simpl. right. eauto.
Qed.

Lemma fanout_events_no_failure m x cs :
  existsb (fails x) cs = false ->
  fanout_events m x cs
  = (fun c => Sent (conn_id c) m) <$> filter (fun c => is_excluded x c = false) cs.
Proof.
  unfold fanout_events.
  induction cs as [|c cs IH]; intros Hq; [reflexivity|].
  simpl in Hq. apply orb_false_iff in Hq as [Hc Hq]. simpl.
  unfold fails in Hc. rewrite filter_cons.
  destruct (is_excluded x c); simpl in *.
  - now apply IH.
  - apply negb_false_iff in Hc. rewrite Hc. simpl. f_equal. now apply IH.
Qed.

Lemma fanout_events_closed m x cs c :
  c ∈ cs -> fails x c = true ->
  In (Closed (conn_id c) 1011) (fanout_events m x cs).
Proof.
  intros Hc Hf. unfold fanout_events. apply in_flat_map.
  exists c. split; [now apply list_elem_of_In|].
  unfold fails in Hf. apply andb_true_iff in Hf as [Hx Hh].
  apply negb_true_iff in Hx, Hh. rewrite Hx, Hh. now left.
Qed.

(** After a broadcast without exclusion, every channel still open is
    healthy. *)
Lemma broadcastMessage_leaves_healthy m st c :
  c ∈ getConnections (broadcastMessage m None st) -> healthy c = true.
Proof.
  generalize (eq_refl (@None Connection)).
  generalize (@None Connection) at 1 3 as x. intros x Hx. revert Hx c.
  apply (broadcast_ind (fun _ x s s' =>
    x = None -> forall c, c ∈ getConnections s' -> healthy c = true)).
  - intros m' x' s Hq -> c Hc. rewrite fanout_quit in Hq.
    unfold getConnections in Hc at 1.
    rewrite (fanout_no_failure_connections _ _ _ _ Hq) in Hc.
    destruct (healthy c) eqn:Hh; [reflexivity|].
    assert (existsb (fails None) (getConnections s) = true); [|congruence].
    apply existsb_exists. exists c. split; [now apply list_elem_of_In|].
    unfold fails. now rewrite Hh.
  - intros m' x' s s' _ s1 IH _ c Hc. now apply IH.
Qed.

(** A sweep that counts a user has not ended the meeting. *)
Lemma cleanupOldConnections_room_kept env now st :
  (cleanupOldConnections env now st).1 <> 0%nat ->
  keeps_room st (cleanupOldConnections env now st).2.
Proof.
  intros Hnz.
  destruct (cleanupOldConnections_unfold env now st)
    as [Hcount [(mid & _ & _ & Hz & _)|[_ [->| ->]]]].
  - congruence.
  - apply keeps_room_swept.
  - apply (keeps_room_trans _ _ _ (keeps_room_swept now st)).
    apply keeps_room_broadcast.
Qed.

(** A record that has not timed out and is not that of a broken channel
    is still there after the sweep, which therefore counts a user. *)
Lemma cleanupOldConnections_survivor env now st key u :
  getUsers st !! key = Some u ->
  timed_out (get_number (heartbeat_key (replace_first "session-" key)) st) now
  = false ->
  (forall c, c ∈ getConnections st -> healthy c = false ->
             session_key (conn_id c) <> key) ->
  storage (cleanupOldConnections env now st).2 !! key = Some (VUser u)
  /\ (cleanupOldConnections env now st).1 <> 0%nat.
Proof.
  intros Hu Ht Hbroken.
  apply getUsers_lookup_Some in Hu as [Hk Hs].
  assert (Hsw : storage (swept now st) !! key = Some (VUser u)).
  { unfold swept. rewrite sweep_survives; auto using getUsers_keys. }
  assert (Hsize : size (getUsers (swept now st)) <> 0%nat).
  { apply map_size_non_empty_iff. intros E.
    assert (getUsers (swept now st) !! key = Some u) as Hl
      by now apply getUsers_lookup_Some.
    rewrite E, lookup_empty in Hl. discriminate. }
  destruct (only_removes_swept now st) as (_ & Hcs & _).
  destruct (cleanupOldConnections_unfold env now st)
    as [-> [(mid & _ & _ & Hz & _)|[_ [->| ->]]]]; [contradiction| |].
  - split; [exact Hsw|exact Hsize].
  - split; [|exact Hsize].
    unfold broadcastRoomState.
    destruct (broadcastMessage_deletes (roomStateMessage (swept now st)) None
                (swept now st) key) as [->|(_ & c & Hc & Hh & Hkey)];
      [exact Hsw|].
    exfalso. apply (Hbroken c); auto.
Qed.

(** * The claims *)

(** ** C2: the status of the lifecycle service and [ended] *)

(** C2.  [getMeeting] is claimed to set [ended] exactly for the statuses
    [done], [cancelled] and [no_show].  The list it tests the status
    against spells the second one [canceled], so a meeting the service
    reports as [cancelled] comes back with [ended = false]; the four
    other statuses are mapped as claimed. *)
Theorem getMeeting_ended_by_status :
  let st := storage_put "roomCode" (VString "abc123") empty_room in
  let ended_for stat := ended <$> getMeeting (service 3 stat) "m1" st in
  ended_for "cancelled" = Some false
  /\ ended_for "done" = Some true
  /\ ended_for "no_show" = Some true
  /\ ended_for "planned" = Some false
  /\ ended_for "started" = Some false.
Proof. vm_compute. repeat split. Qed.

(** ** C4: a connection to an invalid room *)

(** C4.  When the lifecycle service does not accept the room code of a
    new connection, [onConnect] leaves every session record and every
    heartbeat record as it was (the roster is the same map; only the
    [roomCode] key may have been written), does not touch the alarm, and,
    the channel accepting the message, sends [error: 'Room invalid'] on
    it and then closes it with code 4004, and does nothing else. *)
Theorem onConnect_invalid_room env connection ctx now uuid st :
  ok (isRoomValid env (extractRoomCode (request_path ctx))) = false ->
  let o := onConnect env connection ctx now uuid st in
  getUsers (final o) = getUsers st
  /\ (forall id, storage (final o) !! session_key id = storage st !! session_key id)
  /\ (forall id, storage (final o) !! heartbeat_key id = storage st !! heartbeat_key id)
  /\ (forall k, k <> "roomCode" -> storage (final o) !! k = storage st !! k)
  /\ alarm_at (final o) = alarm_at st
  /\ (healthy connection = true ->
      o = Returned (final o)
      /\ trace (final o)
         = trace st ++ [Sent (conn_id connection) (S_error "Room invalid");
                        Closed (conn_id connection) 4004]
      /\ open_connections (final o)
         = filter (fun c => conn_id c <> conn_id connection) (open_connections st))
  /\ (healthy connection = false -> trace (final o) = trace st).
Proof.
  intros Hinvalid o. subst o. unfold onConnect. rewrite Hinvalid. simpl.
  set (st1 := match extractRoomCode (request_path ctx) with
              | Some rc => _ | None => st end).
  assert (Hother : forall k, k <> "roomCode" -> storage st1 !! k = storage st !! k).
  { intros k Hk. subst st1.
    destruct (extractRoomCode (request_path ctx)) as [rc|]; [|reflexivity].
    destruct (truthy (Some rc) && negb (truthy (getRoomCode st)));
      [|reflexivity].
    unfold storage_put. simpl. now rewrite lookup_insert_ne. }
  assert (Halarm : alarm_at st1 = alarm_at st).
  { subst st1. destruct (extractRoomCode (request_path ctx)) as [rc|];
      [|reflexivity].
    now destruct (truthy (Some rc) && negb (truthy (getRoomCode st))). }
  assert (Htrace : trace st1 = trace st).
  { subst st1. destruct (extractRoomCode (request_path ctx)) as [rc|];
      [|reflexivity].
    now destruct (truthy (Some rc) && negb (truthy (getRoomCode st))). }
  assert (Hconns : open_connections st1 = open_connections st).
  { subst st1. destruct (extractRoomCode (request_path ctx)) as [rc|];
      [|reflexivity].
    now destruct (truthy (Some rc) && negb (truthy (getRoomCode st))). }
  assert (Husers : getUsers st1 = getUsers st).
  { apply map_eq. intros k. rewrite !getUsers_lookup.
    destruct (starts_with "session-" k) eqn:Hk; [|reflexivity].
    unfold get_user. rewrite Hother; [reflexivity|].
    intros ->. discriminate Hk. }
  unfold sendMessage, send.
  destruct (healthy connection); simpl.
  - repeat split; try discriminate.
    + rewrite <- Husers. now apply getUsers_ext.
    + intros id. now apply Hother.
    + intros id. now apply Hother.
    + exact Hother.
    + exact Halarm.
    + now rewrite Htrace, <- app_assoc.
    + now rewrite Hconns.
  - repeat split; try discriminate; try assumption.
    + intros id. now apply Hother.
    + intros id. now apply Hother.
    + intros _. exact Htrace.
Qed.

(** Alice connecting to a room the service does not know. *)
Lemma onConnect_invalid_room_witness :
  let o := onConnect no_service c1 (mkContext [""; "rooms"; "abc123"] (Some "Alice"))
             1000 "m1" (room_of [c1]) in
  getUsers (final o) = getUsers (room_of [c1])
  /\ trace (final o) = [Sent "c1" (S_error "Room invalid"); Closed "c1" 4004]
  /\ open_connections (final o) = [].
Proof.
  pose proof (onConnect_invalid_room no_service c1
                (mkContext [""; "rooms"; "abc123"] (Some "Alice"))
                1000 "m1" (room_of [c1]) eq_refl)
    as (Hu & _ & _ & _ & _ & Hh & _).
  destruct (Hh eq_refl) as (_ & Ht & Hc).
  split; [exact Hu|]. split; [exact Ht|exact Hc].
Defined.

(** ** C7: direct messages *)

(** C7.  A [directMessage] whose [to] is the id of an open channel (ids
    of open channels being distinct, the sender having a stored User
    record, the target accepting the message) makes the coordinator send
    one message: a [directMessage] on the target channel, whose [from] is
    the name in the sender's stored record.  Nothing else is sent, on
    that channel or any other, and nothing else changes. *)
Theorem directMessage_delivery connection to message now st u target :
  get_user (session_key (conn_id connection)) st = Some u ->
  target ∈ getConnections st ->
  conn_id target = to ->
  NoDup (conn_id <$> getConnections st) ->
  healthy target = true ->
  let o := onMessage connection (WSString (Some (C_directMessage to message))) now st in
  o = Returned (final o)
  /\ trace (final o) = trace st ++ [Sent to (S_directMessage (name u) message)]
  /\ storage (final o) = storage st
  /\ open_connections (final o) = open_connections st.
Proof.
  intros Hu Hin Hid Hnd Hh o. subst o to.
  unfold onMessage, handle.
  rewrite (find_connection_unique st target Hnd Hin), Hu.
  unfold sendMessage, send. rewrite Hh. simpl. auto.
Qed.

(** Alice writes to Bob in the room of the scenario. *)
Lemma directMessage_delivery_witness :
  trace (final (onMessage c1 (WSString (Some (C_directMessage "c2" "hello")))
                  3000 (room_of [c1; c2])))
  = [Sent "c2" (S_directMessage "Alice" "hello")].
Proof.
  assert (Hin : c2 ∈ getConnections (room_of [c1; c2]))
    by (right; left).
  assert (Hnd : NoDup (conn_id <$> getConnections (room_of [c1; c2])))
    by compute_done.
  exact (proj1 (proj2 (directMessage_delivery c1 "c2" "hello" 3000
                         (room_of [c1; c2]) alice c2
                         eq_refl Hin eq_refl Hnd eq_refl))).
Defined.

(** ** C8: muting a user who is not there *)

(** C8.  A [muteUser] whose [id] is the id of no open channel changes
    nothing that is stored: the store, hence the roster and every user's
    [audioEnabled] flag, is the same, and so are the open channels and
    the alarm.  At most one message is sent, an [error] to the sender
    (when the sender has no stored record, the warning that reads its
    name throws); no [muteMic] and no roster goes out. *)
Theorem muteUser_unknown_target connection id now st :
  (forall c, c ∈ getConnections st -> conn_id c <> id) ->
  let o := onMessage connection (WSString (Some (C_muteUser id))) now st in
  storage (final o) = storage st
  /\ getUsers (final o) = getUsers st
  /\ open_connections (final o) = open_connections st
  /\ alarm_at (final o) = alarm_at st
  /\ (trace (final o) = trace st
      \/ trace (final o)
         = trace st ++ [Sent (conn_id connection) (S_error "TypeError")])
  /\ (is_Some (get_user (session_key (conn_id connection)) st) ->
      o = Returned st).
Proof.
  intros Hnone o. subst o. unfold onMessage, handle.
  rewrite (find_connection_None st id Hnone).
  destruct (get_user (session_key (conn_id connection)) st) as [u|]; simpl.
  - repeat split; auto.
  - unfold sendMessage, send. destruct (healthy connection); simpl.
    + repeat split; auto. intros [? [=]].
    + repeat split; auto. intros [? [=]].
Qed.

(** Alice mutes [c9], who is not in the room of the scenario. *)
Lemma muteUser_unknown_target_witness :
  onMessage c1 (WSString (Some (C_muteUser "c9"))) 3000 (room_of [c1; c2])
  = Returned (room_of [c1; c2]).
Proof.
  assert (Hnone : forall c, c ∈ getConnections (room_of [c1; c2]) ->
                            conn_id c <> "c9").
  { intros c Hc. simpl in Hc.
    apply elem_of_cons in Hc as [->|Hc]; [discriminate|].
    apply elem_of_cons in Hc as [->|Hc]; [discriminate|].
    now apply elem_of_nil in Hc. }
  apply (muteUser_unknown_target c1 "c9" 3000 (room_of [c1; c2]) Hnone).
  exists alice. reflexivity.
Defined.

(** ** C9: a user update is read back as it was written *)

(** C9.  After [userUpdate{user}] the record under the sender's session
    key is [user], and the roster that [broadcastRoomState] reads is the
    old one with that key set to [user].  When a meeting id is stored,
    the roster message carrying this record is what every healthy open
    channel is sent; and unless the sender's own channel is broken, the
    record is still [user] when the handler is done. *)
Theorem userUpdate_roundtrip connection user now st :
  let key := session_key (conn_id connection) in
  let st1 := storage_put key (VUser user) st in
  let o := onMessage connection (WSString (Some (C_userUpdate user))) now st in
  let roster := (map_to_list (getUsers st1)).*2 in
  get_user key st1 = Some user
  /\ getUsers st1 = <[key := user]> (getUsers st)
  /\ user ∈ roster
  /\ ((forall c, c ∈ getConnections st -> conn_id c = conn_id connection ->
                 healthy c = true) ->
      get_user key (final o) = Some user)
  /\ forall mid, getMeetingId st = Some mid -> mid <> "" ->
       roomStateMessage st1 = S_roomState mid roster
       /\ forall c, c ∈ getConnections st -> healthy c = true ->
            exists evs, trace (final o) = trace st ++ evs
                        /\ In (Sent (conn_id c) (S_roomState mid roster)) evs.
Proof.
  intros key st1 o roster.
  assert (Hget : get_user key st1 = Some user).
  { unfold get_user, st1, storage_put. simpl. now rewrite lookup_insert_eq. }
  assert (Hros : getUsers st1 = <[key := user]> (getUsers st))
    by apply getUsers_put_session.
  split; [exact Hget|]. split; [exact Hros|]. split.
  { subst roster. apply list_elem_of_fmap. exists (key, user).
    split; [reflexivity|]. apply elem_of_map_to_list.
    rewrite Hros. apply lookup_insert_eq. }
  split.
  { intros Hsender. subst o. unfold onMessage, handle. simpl.
    fold key. fold st1. unfold broadcastRoomState, get_user in *.
    destruct (broadcastMessage_deletes (roomStateMessage st1) None st1 key)
      as [->|(_ & c & Hc & Hh & Hk)]; [exact Hget|].
    apply session_key_inj in Hk. rewrite (Hsender c Hc) in Hh; [|auto].
    discriminate Hh. }
  intros mid Hmid Hne.
  assert (Hmsg : roomStateMessage st1 = S_roomState mid roster).
  { unfold roomStateMessage.
    assert (getMeetingId st1 = Some mid) as ->.
    { unfold getMeetingId, get_string, st1, storage_put in *. simpl.
      rewrite lookup_insert_ne; [exact Hmid|]. subst key. discriminate. }
    simpl. destruct (String.eqb_spec mid ""); [contradiction|reflexivity]. }
  split; [exact Hmsg|].
  intros c Hc Hh. subst o. unfold onMessage, handle. simpl.
  fold key. fold st1. unfold broadcastRoomState. rewrite Hmsg.
  apply (broadcastMessage_delivers (S_roomState mid roster) None st1 c);
    [exact Hc|reflexivity|exact Hh].
Qed.

(** Alice updates her record; Bob is sent the roster that carries it. *)
Lemma userUpdate_roundtrip_witness :
  let u := mute alice in
  let st1 := storage_put (session_key "c1") (VUser u) (room_of [c1; c2]) in
  let o := onMessage c1 (WSString (Some (C_userUpdate u))) 3000 (room_of [c1; c2]) in
  exists evs,
    trace (final o) = trace (room_of [c1; c2]) ++ evs
    /\ In (Sent "c2" (S_roomState "m1" ((map_to_list (getUsers st1)).*2))) evs.
Proof.
  intros u st1 o.
  destruct (userUpdate_roundtrip c1 u 3000 (room_of [c1; c2]))
    as (_ & _ & _ & _ & H).
  destruct (H "m1" eq_refl) as [_ Hc]; [discriminate|].
  apply (Hc c2); [right; left|reflexivity].
Defined.

(** ** C1: what the sweep deletes *)

(** C1.  The sweep is claimed to delete the User record and the
    heartbeat record of a user it evicts.  With Alice last seen at 1000
    and Bob at 20000, the sweep of time 30000 evicts Alice and keeps Bob:
    both channels are told that [c1] left, Alice's session record is
    deleted and her channel closed with 1011, Bob's records are as they
    were and the roster without Alice is sent to him.  Alice's heartbeat
    record, however, is still in the store. *)
Theorem cleanupOldConnections_keeps_heartbeat :
  let st := room_of [c1; c2] in
  let r := cleanupOldConnections (service 2 "started") 30000 st in
  r.1 = 1%nat
  /\ storage r.2 !! session_key "c1" = None
  /\ storage r.2 !! heartbeat_key "c1" = Some (VNumber 1000)
  /\ storage r.2 !! session_key "c2" = Some (VUser bob)
  /\ storage r.2 !! heartbeat_key "c2" = Some (VNumber 20000)
  /\ open_connections r.2 = [c2]
  /\ trace r.2 = [Sent "c1" (S_userLeftNotification "c1");
                  Sent "c2" (S_userLeftNotification "c1");
                  Closed "c1" 1011;
                  Sent "c2" (S_roomState "m1" [bob])].
Proof. vm_compute. repeat split. Qed.

(** ** C5: the peak report on connect *)

(** C5.  [trackPeakUserCount] is claimed to report only when the roster
    has outgrown the recorded peak or the meeting is flagged ended.  The
    second test is [meeting.ended !== null] on a boolean, which always
    holds: with two users, a recorded peak of 5 and a meeting that is
    [started] (so [ended = false]), the report is sent all the same,
    carrying the recorded peak. *)
Theorem trackPeakUserCount_always_reports :
  let env := service 5 "started" in
  let st := room_of [c1; c2] in
  let r := trackPeakUserCount env 10000 "fresh" st in
  getMeeting env "m1" st
  = Some {| meeting_roomId := "abc123"; ended := false;
            peakUserCount := 5; meeting_id := "m1" |}
  /\ size (getUsers r.2) = 2%nat
  /\ r.1 = Some "m1"
  /\ trace r.2 = [StatsReport "abc123" 5 "started"].
Proof. vm_compute. repeat split. Qed.

(** ** C6: a channel that fails during a broadcast *)

(** C6.  A channel whose [send] throws during a broadcast is claimed to
    lose its User record and its heartbeat record.  With Bob's channel
    broken, a broadcast reaches Alice, closes Bob's channel with 1011,
    deletes Bob's session record and sends the roster, now without Bob,
    a second time.  Bob's heartbeat record is still in the store. *)
Theorem broadcastMessage_keeps_heartbeat :
  let st := room_of [c1; c2_broken] in
  let st' := broadcastMessage (S_userLeftNotification "c9") None st in
  storage st' !! session_key "c2" = None
  /\ storage st' !! heartbeat_key "c2" = Some (VNumber 20000)
  /\ open_connections st' = [c1]
  /\ trace st' = [Sent "c1" (S_userLeftNotification "c9");
                  Closed "c2" 1011;
                  Sent "c1" (S_roomState "m1" [alice])].
Proof. vm_compute. repeat split. Qed.

(** ** C10: the roster broadcast of a room without meeting id *)

Lemma roomStateMessage_no_meeting st :
  truthy (getMeetingId st) = false -> roomStateMessage st = no_meeting_error.
Proof.
  unfold roomStateMessage. destruct (getMeetingId st) as [mid|]; [|reflexivity].
  now intros ->.
Qed.

(** C10, as stated, fails.  Without a meeting id and with Bob's channel
    broken, [broadcastRoomState] closes Bob's channel with 1011 and
    deletes his session record; his channel was open and is sent no
    error. *)
Lemma broadcastRoomState_no_meeting_broken_channel :
  let st := cleared_room [c1; c2_broken] in
  let st' := broadcastRoomState st in
  truthy (getMeetingId st) = false
  /\ open_connections st' = [c1]
  /\ storage st !! session_key "c2" = Some (VUser bob)
  /\ storage st' !! session_key "c2" = None
  /\ trace st' = [Sent "c1" no_meeting_error; Closed "c2" 1011;
                  Sent "c1" no_meeting_error]
  /\ ~ closes_nothing_without_meeting st.
Proof.
  cbv zeta. repeat split; try (vm_compute; reflexivity).
  intros H. destruct (H eq_refl) as (_ & Hc & _).
  vm_compute in Hc. discriminate Hc.
Qed.

(** C10, amended.  Without a meeting id, [broadcastRoomState] sends no
    roster: all it sends is the error 'No meetingId found, closing
    connection', which every healthy open channel receives.  It closes
    only channels whose [send] throws (code 1011) and deletes only their
    session records; when no [send] throws it closes no channel, deletes
    no record and sends the error once on every open channel. *)
Theorem broadcastRoomState_no_meeting st :
  truthy (getMeetingId st) = false ->
  let st' := broadcastRoomState st in
  (exists evs,
     trace st' = trace st ++ evs
     /\ (forall ev, In ev evs ->
           broadcast_event (fun m => m = no_meeting_error) (getConnections st) ev)
     /\ (forall c, c ∈ getConnections st -> healthy c = true ->
           In (Sent (conn_id c) no_meeting_error) evs))
  /\ (forall c, c ∈ getConnections st ->
        c ∈ getConnections st'
        \/ exists c', c' ∈ getConnections st /\ healthy c' = false
                     /\ conn_id c' = conn_id c)
  /\ (forall k,
        storage st' !! k = storage st !! k
        \/ (storage st' !! k = None
            /\ exists c, c ∈ getConnections st /\ healthy c = false
                         /\ k = session_key (conn_id c)))
  /\ ((forall c, c ∈ getConnections st -> healthy c = true) ->
      storage st' = storage st
      /\ open_connections st' = open_connections st
      /\ trace st'
         = trace st ++ ((fun c => Sent (conn_id c) no_meeting_error)
                          <$> getConnections st)).
Proof.
  intros Hno st'. subst st'. unfold broadcastRoomState.
  rewrite (roomStateMessage_no_meeting st Hno).
  repeat split.
  - destruct (broadcastMessage_events (fun m => m = no_meeting_error)
                no_meeting_error None st) as (evs & Ht & Hev).
    + reflexivity.
    + intros s Hs. apply roomStateMessage_no_meeting. now rewrite Hs.
    + exists evs. split; [exact Ht|]. split; [exact Hev|].
      intros c Hc Hh.
      destruct (broadcastMessage_delivers no_meeting_error None st c Hc
                  eq_refl Hh) as (evs' & Ht' & Hin).
      rewrite Ht in Ht'. apply app_inv_head in Ht'. now subst evs'.
  - intros c. apply broadcastMessage_closes.
  - intros k. apply broadcastMessage_deletes.
  - now rewrite broadcastMessage_healthy.
  - now rewrite broadcastMessage_healthy.
  - now rewrite broadcastMessage_healthy.
Qed.

(** Two healthy channels in a room without meeting id. *)
Lemma broadcastRoomState_no_meeting_witness :
  let st := cleared_room [c1; c2] in
  storage (broadcastRoomState st) = storage st
  /\ open_connections (broadcastRoomState st) = [c1; c2]
  /\ trace (broadcastRoomState st)
     = [Sent "c1" no_meeting_error; Sent "c2" no_meeting_error].
Proof.
  intros st.
  assert (Hh : forall c, c ∈ getConnections st -> healthy c = true).
  { intros c Hc. simpl in Hc.
    apply elem_of_cons in Hc as [->|Hc]; [reflexivity|].
    apply elem_of_cons in Hc as [->|Hc]; [reflexivity|].
    now apply elem_of_nil in Hc. }
  destruct (broadcastRoomState_no_meeting st eq_refl) as (_ & _ & _ & H).
  exact (H Hh).
Defined.

(** ** C3: after the sweep *)

(** C3, as stated, fails.  A first connection whose user name cannot be
    resolved leaves the room code stored and the alarm armed, and no
    meeting id.  When the alarm fires the sweep counts no user, and yet
    the meeting is not ended: the room code stays in the store and no
    report is issued (the open channel is sent the error of C10). *)
Lemma alarm_without_meeting_keeps_store :
  let env := service 0 "planned" in
  let st' := alarm env 16000 unnamed_room in
  final (onConnect env c1 (mkContext [""; "rooms"; "abc123"] None) 1000 "m1"
           (mkState ∅ None [c1] [])) = unnamed_room
  /\ (cleanupOldConnections env 16000 unnamed_room).1 = 0%nat
  /\ storage st' !! "roomCode" = Some (VString "abc123")
  /\ trace st' = [Sent "c1" no_meeting_error]
  /\ ~ ends_meeting_when_empty env 16000 unnamed_room.
Proof.
  cbv zeta. repeat split; try (vm_compute; reflexivity).
  intros H. destruct (H eq_refl) as (Hs & _).
  apply (f_equal (fun m => m !! "roomCode")) in Hs.
  vm_compute in Hs. discriminate Hs.
Qed.

(** C3, amended.  Let [count] be the number of users the sweep leaves.
    - If [count] is zero the alarm is not set again; if moreover a
      meeting id is stored, every key of the room is removed, and if a
      room code is stored a report [{peakUsers, status: 'done'}] is
      issued for it.
    - If [count] is not zero the alarm is set to [now + 15000], and, a
      meeting id being stored, every channel still open has been sent the
      roster as it is after the sweep. *)
Theorem alarm_after_sweep env now st :
  let count := (cleanupOldConnections env now st).1 in
  let st' := alarm env now st in
  (count = 0%nat ->
     alarm_at st' = alarm_at st
     /\ forall mid, getMeetingId st = Some mid -> mid <> "" ->
          storage st' = ∅
          /\ forall rc, getRoomCode st = Some rc -> rc <> "" ->
               exists evs peak,
                 trace st' = trace st ++ evs
                 /\ In (StatsReport rc peak "done") evs)
  /\ (count <> 0%nat ->
     alarm_at st' = Some (now + alarmInterval)
     /\ forall mid, getMeetingId st = Some mid -> mid <> "" ->
          forall c, c ∈ getConnections st' ->
            exists evs,
              trace st' = trace st ++ evs
              /\ In (Sent (conn_id c)
                       (S_roomState mid ((map_to_list (getUsers st')).*2)))
                    evs).
Proof.
  intros count st'. subst count st'. unfold alarm.
  destruct (cleanupOldConnections_cases env now st)
    as (st1 & Hk1 & Hcount & Hcases).
  pose proof (cleanupOldConnections_alarm env now st) as Halarm.
  destruct (cleanupOldConnections env now st) as [count st2]. simpl in *.
  subst count. split.
  - intros Hz. rewrite Hz. simpl.
    split; [unfold broadcastRoomState; now rewrite broadcastMessage_alarm|].
    intros mid Hmid Hne.
    destruct Hcases as [(mid' & Hmid' & _ & _ & ->)|[[Hno|Hnz] _]].
    + split.
      * apply map_eq. intros k. rewrite lookup_empty.
        apply broadcastMessage_storage_None.
        now rewrite endMeeting_storage, lookup_empty.
      * intros rc Hrc Hrcne.
        destruct (broadcastMessage_trace
                    (roomStateMessage (endMeeting env mid' st1)) None
                    (endMeeting env mid' st1)) as [e3 Ht3].
        destruct Hk1 as (_ & Hs1 & e1 & Ht1).
        assert (Hrc1 : getRoomCode st1 = Some rc).
        { unfold getRoomCode, get_string in *. now rewrite Hs1. }
        unfold broadcastRoomState. rewrite Ht3.
        rewrite (endMeeting_report env mid' st1 rc Hrc1 Hrcne), Ht1.
        eexists. exists 0. rewrite <- !app_assoc. split; [reflexivity|].
        apply in_or_app. right. now left.
    + rewrite Hmid in Hno. simpl in Hno.
      destruct (String.eqb_spec mid ""); [contradiction|discriminate].
    + contradiction.
  - intros Hnz. destruct (Nat.eqb_spec (size (getUsers st1)) 0) as [|_];
      [contradiction|]. simpl.
    split; [reflexivity|].
    intros mid Hmid Hne c Hc.
    destruct Hcases as [(_ & _ & _ & Hz & _)|[_ Hk2]]; [contradiction|].
    assert (Hmid2 : getMeetingId (broadcastRoomState st2) = Some mid).
    { unfold broadcastRoomState. rewrite broadcastMessage_getMeetingId.
      rewrite (keeps_room_getMeetingId _ _ Hk2).
      now rewrite (keeps_room_getMeetingId _ _ Hk1). }
    destruct (broadcastRoomState_final st2 c Hc) as (e3 & Ht3 & Hin).
    destruct Hk1 as (_ & _ & e1 & Ht1). destruct Hk2 as (_ & _ & e2 & Ht2).
    exists (e1 ++ e2 ++ e3). split.
    + rewrite Ht3, Ht2, Ht1. now rewrite <- !app_assoc.
    + apply in_or_app. right. apply in_or_app. right.
      unfold roomStateMessage in Hin. rewrite Hmid2 in Hin. simpl in Hin.
      destruct (String.eqb_spec mid ""); [contradiction|]. exact Hin.
Qed.

(** The room of the scenario, swept at 30000 (Bob stays) and at 50000
    (nobody stays). *)
Lemma alarm_after_sweep_witness :
  let env := service 2 "started" in
  let kept := alarm env 30000 (room_of [c1; c2]) in
  let ended := alarm env 50000 (room_of [c1; c2]) in
  alarm_at kept = Some 45000
  /\ (exists evs, trace kept = [] ++ evs
                  /\ In (Sent "c2" (S_roomState "m1"
                           ((map_to_list (getUsers kept)).*2))) evs)
  /\ alarm_at ended = Some 16000
  /\ storage ended = ∅
  /\ (exists evs peak, trace ended = [] ++ evs
                       /\ In (StatsReport "abc123" peak "done") evs).
Proof.
  intros env kept ended.
  destruct (alarm_after_sweep env 30000 (room_of [c1; c2])) as [_ Hnz].
  destruct (alarm_after_sweep env 50000 (room_of [c1; c2])) as [Hz _].
  destruct Hnz as [Ha Hr]; [vm_compute; discriminate|].
  destruct Hz as [Ha0 Hm]; [vm_compute; reflexivity|].
  destruct (Hm "m1" eq_refl) as [Hs Hrep]; [discriminate|].
  clear Hm.
  assert (Hc2 : c2 ∈ getConnections (alarm env 30000 (room_of [c1; c2])))
    by (vm_compute; left).
  assert (Hm1 : "m1" <> "") by discriminate.
  assert (Hrc : "abc123" <> "") by discriminate.
  split; [exact Ha|]. split; [exact (Hr "m1" eq_refl Hm1 c2 Hc2)|].
  split; [exact Ha0|]. split; [exact Hs|].
  exact (Hrep "abc123" eq_refl Hrc).
Defined.

(** * Further properties of the coordinator *)

(** ** The sweep *)

(** X1.  A stored user whose heartbeat is missing or older than the
    interval is gone after [cleanupOldConnections]: its session record is
    deleted, no channel with its id is open any more, and if such a
    channel was open it has been closed with code 1011. *)
Theorem cleanupOldConnections_evicts env now st key u :
  getUsers st !! key = Some u ->
  timed_out (get_number (heartbeat_key (replace_first "session-" key)) st) now
  = true ->
  let id := replace_first "session-" key in
  let st' := (cleanupOldConnections env now st).2 in
  storage st' !! key = None
  /\ getUsers st' !! key = None
  /\ (forall c, c ∈ getConnections st' -> conn_id c <> id)
  /\ ((exists c, c ∈ getConnections st /\ conn_id c = id) ->
      exists evs, trace st' = trace st ++ evs /\ In (Closed id 1011) evs).
Proof.
  intros Hu Ht id st'.
  destruct (sweep_evicts now (getConnections st) (map_to_list (getUsers st))
              (O, st) key u (getUsers_keys st)) as (Hs & Hc & Hev).
  { now apply elem_of_map_to_list. }
  { exact Ht. }
  { auto. }
  fold (swept now st) in Hs, Hc, Hev.
  destruct (only_removes_after_sweep env now st) as (Hs2 & Hc2 & e2 & Ht2).
  fold st' in Hs2, Hc2, Ht2.
  assert (Hnone : storage st' !! key = None)
    by (destruct (Hs2 key) as [H|H]; congruence).
  split; [exact Hnone|]. split.
  { rewrite getUsers_lookup. unfold get_user. rewrite Hnone.
    now destruct (starts_with "session-" key). }
  split.
  { intros c Hin. apply Hc. now apply Hc2. }
  intros Hex. destruct (Hev Hex) as (evs & Hte & Hin). simpl in Hte.
  exists (evs ++ e2). split; [now rewrite Ht2, Hte, app_assoc|].
  apply in_or_app. now left.
Qed.

(** Alice, last seen at 1000, swept at 30000. *)
Lemma cleanupOldConnections_evicts_witness :
  let st' := (cleanupOldConnections (service 2 "started") 30000
                (room_of [c1; c2])).2 in
  getUsers st' !! session_key "c1" = None
  /\ forall c, c ∈ getConnections st' -> conn_id c <> "c1".
Proof.
  intros st'.
  destruct (cleanupOldConnections_evicts (service 2 "started") 30000
              (room_of [c1; c2]) (session_key "c1") alice eq_refl eq_refl)
    as (_ & Hg & Hc & _).
  split; [exact Hg|exact Hc].
Defined.

(** X2.  A stored user whose heartbeat is not older than the interval,
    and whose session key is not that of a broken channel, keeps its
    record through [cleanupOldConnections]; the sweep then counts at
    least one user, does not end the meeting, and leaves the alarm and
    every key that is not a session key (room code, meeting id,
    heartbeats) as they were. *)
Theorem cleanupOldConnections_keeps env now st key u :
  getUsers st !! key = Some u ->
  timed_out (get_number (heartbeat_key (replace_first "session-" key)) st) now
  = false ->
  (forall c, c ∈ getConnections st -> healthy c = false ->
             session_key (conn_id c) <> key) ->
  let r := cleanupOldConnections env now st in
  storage r.2 !! key = Some (VUser u)
  /\ r.1 <> 0%nat
  /\ keeps_room st r.2.
Proof.
  intros Hu Ht Hbroken r. subst r.
  destruct (cleanupOldConnections_survivor env now st key u Hu Ht Hbroken)
    as [Hs Hnz].
  split; [exact Hs|]. split; [exact Hnz|].
  now apply cleanupOldConnections_room_kept.
Qed.

(** Bob, last seen at 20000, swept at 30000. *)
Lemma cleanupOldConnections_keeps_witness :
  let r := cleanupOldConnections (service 2 "started") 30000
             (room_of [c1; c2]) in
  storage r.2 !! session_key "c2" = Some (VUser bob) /\ r.1 <> 0%nat.
Proof.
  intros r.
  assert (Hb : forall c, c ∈ getConnections (room_of [c1; c2]) ->
                 healthy c = false -> session_key (conn_id c) <> session_key "c2").
  { intros c Hc Hh. simpl in Hc.
    apply elem_of_cons in Hc as [->|Hc]; [discriminate Hh|].
    apply elem_of_cons in Hc as [->|Hc]; [discriminate Hh|].
    now apply elem_of_nil in Hc. }
  destruct (cleanupOldConnections_keeps (service 2 "started") 30000
              (room_of [c1; c2]) (session_key "c2") bob eq_refl eq_refl Hb)
    as (Hs & Hn & _).
  split; [exact Hs|exact Hn].
Defined.

(** X3.  [cleanupOldConnections] writes nothing: every key keeps its
    value or is deleted, every channel open after was open before, and
    the trace is only extended.  The count it returns is at most the
    number of users stored before and at least the number stored
    after. *)
Theorem cleanupOldConnections_only_removes env now st :
  let r := cleanupOldConnections env now st in
  only_removes st r.2
  /\ (size (getUsers r.2) <= r.1 <= size (getUsers st))%nat.
Proof.
  intros r. subst r. split; [apply only_removes_cleanup|].
  destruct (cleanupOldConnections_unfold env now st) as [-> _].
  split; apply map_subseteq_size, only_removes_getUsers.
  - apply only_removes_after_sweep.
  - apply only_removes_swept.
Qed.

(** X4.  A [heartbeat] message records the time it is received under the
    sender's heartbeat key and changes nothing else; a sweep that runs no
    later than one interval after it keeps the sender's record (the
    sender's channel not being broken). *)
Theorem heartbeat_keeps_alive env connection t now st u :
  get_user (session_key (conn_id connection)) st = Some u ->
  now <= t + alarmInterval ->
  (forall c, c ∈ getConnections st -> healthy c = false ->
             conn_id c <> conn_id connection) ->
  let o := onMessage connection (WSString (Some C_heartbeat)) t st in
  o = Returned (final o)
  /\ storage (final o) = <[heartbeat_key (conn_id connection) := VNumber t]> (storage st)
  /\ trace (final o) = trace st
  /\ open_connections (final o) = open_connections st
  /\ storage (cleanupOldConnections env now (final o)).2
       !! session_key (conn_id connection) = Some (VUser u).
Proof.
  intros Hu Hnow Hbroken o. subst o. unfold onMessage, handle. simpl.
  repeat split.
  apply get_user_Some in Hu.
  set (st1 := storage_put (heartbeat_key (conn_id connection)) (VNumber t) st).
  destruct (cleanupOldConnections_survivor env now st1
              (session_key (conn_id connection)) u) as (H & _).
  - apply getUsers_lookup_Some. split; [apply starts_with_session|].
    unfold st1, storage_put. simpl.
    rewrite lookup_insert_ne by apply heartbeat_not_session. exact Hu.
  - rewrite replace_first_session. unfold get_number, st1, storage_put. simpl.
    rewrite lookup_insert_eq. simpl. apply Z.ltb_ge. exact Hnow.
  - intros c Hc Hh E. apply session_key_inj in E. now apply (Hbroken c).
  - exact H.
Qed.

(** Alice's heartbeat at 20000 carries her through the sweep of 30000. *)
Lemma heartbeat_keeps_alive_witness :
  storage (cleanupOldConnections (service 2 "started") 30000
             (final (onMessage c1 (WSString (Some C_heartbeat)) 20000
                       (room_of [c1; c2])))).2
    !! session_key "c1" = Some (VUser alice).
Proof.
  assert (Hb : forall c, c ∈ getConnections (room_of [c1; c2]) ->
                 healthy c = false -> conn_id c <> conn_id c1).
  { intros c Hc Hh. simpl in Hc.
    apply elem_of_cons in Hc as [->|Hc]; [discriminate Hh|].
    apply elem_of_cons in Hc as [->|Hc]; [discriminate Hh|].
    now apply elem_of_nil in Hc. }
  assert (Hn : 30000 <= 20000 + alarmInterval) by (vm_compute; discriminate).
  exact (proj2 (proj2 (proj2 (proj2
           (heartbeat_keeps_alive (service 2 "started") c1 20000 30000
              (room_of [c1; c2]) alice eq_refl Hn Hb))))).
Defined.

(** X5.  [userLeft] closes the sender's channel with code 1000 first,
    then tells every healthy channel that is still open that the sender
    left, deletes the sender's session and heartbeat records and
    broadcasts the roster.  Afterwards no record and no open channel of
    the sender is left, nothing was sent on the sender's channel, and
    every channel still open has been sent the roster of the final
    state, in which the sender is not. *)
Theorem userLeft_removes connection now st :
  let id := conn_id connection in
  let o := onMessage connection (WSString (Some C_userLeft)) now st in
  o = Returned (final o)
  /\ storage (final o) !! session_key id = None
  /\ storage (final o) !! heartbeat_key id = None
  /\ getUsers (final o) !! session_key id = None
  /\ (forall c, c ∈ getConnections (final o) -> conn_id c <> id)
  /\ alarm_at (final o) = alarm_at st
  /\ exists evs,
       trace (final o) = trace st ++ Closed id 1000 :: evs
       /\ (forall m, ~ In (Sent id m) evs)
       /\ (forall c, c ∈ getConnections st -> conn_id c <> id ->
             healthy c = true ->
             In (Sent (conn_id c) (S_userLeftNotification id)) evs)
       /\ (forall c, c ∈ getConnections (final o) ->
             In (Sent (conn_id c) (roomStateMessage (final o))) evs).
Proof.
  intros id o. subst o. unfold onMessage, handle. simpl. fold id.
  set (st1 := close connection 1000 st).
  set (st2 := userLeftNotification id st1).
  set (st4 := storage_delete (heartbeat_key id)
                (storage_delete (session_key id) st2)).
  assert (Hc1 : forall c, c ∈ open_connections st1 <->
                          conn_id c <> id /\ c ∈ open_connections st).
  { intros c. unfold st1, close. simpl. now rewrite list_elem_of_filter. }
  destruct (broadcastMessage_recipients (S_userLeftNotification id) None st1)
    as (e2 & Ht2 & Hr2). fold (userLeftNotification id st1) in Ht2.
  fold st2 in Ht2.
  destruct (broadcastMessage_recipients (roomStateMessage st4) None st4)
    as (e5 & Ht5 & Hr5). fold (broadcastRoomState st4) in Ht5.
  assert (Hc2 : forall c, c ∈ open_connections st2 -> c ∈ open_connections st1)
    by (intros c; apply broadcastMessage_connections_elem).
  assert (Hs4s : storage st4 !! session_key id = None).
  { unfold st4, storage_delete. simpl.
    rewrite lookup_delete_ne by apply heartbeat_not_session.
    apply lookup_delete_eq. }
  assert (Hs4h : storage st4 !! heartbeat_key id = None).
  { unfold st4, storage_delete. simpl. apply lookup_delete_eq. }
  assert (Hs5s : storage (broadcastRoomState st4) !! session_key id = None)
    by now apply broadcastMessage_storage_None.
  split; [reflexivity|]. split; [exact Hs5s|].
  split; [now apply broadcastMessage_storage_None|].
  split.
  { rewrite getUsers_lookup. unfold get_user. rewrite Hs5s.
    now destruct (starts_with "session-" (session_key id)). }
  split.
  { intros c Hc. apply broadcastMessage_connections_elem in Hc.
    apply Hc2, Hc1 in Hc. tauto. }
  split.
  { unfold broadcastRoomState. rewrite broadcastMessage_alarm. simpl.
    unfold st2, userLeftNotification. now rewrite broadcastMessage_alarm. }
  exists (e2 ++ e5). split.
  { rewrite Ht5. simpl. rewrite Ht2. simpl. now rewrite <- !app_assoc. }
  split.
  { intros m [Hin|Hin]%in_app_or.
    - destruct (Hr2 _ _ Hin) as (c & Hc & Hid & _).
      apply Hc1 in Hc. tauto.
    - destruct (Hr5 _ _ Hin) as (c & Hc & Hid & _).
      simpl in Hc. apply Hc2, Hc1 in Hc. tauto. }
  split.
  { intros c Hc Hid Hh. apply in_or_app. left.
    destruct (broadcastMessage_delivers (S_userLeftNotification id) None st1 c)
      as (e2' & Ht2' & Hin); [apply Hc1; auto|reflexivity|exact Hh|].
    fold (userLeftNotification id st1) in Ht2'. fold st2 in Ht2'.
    rewrite Ht2 in Ht2'. apply app_inv_head in Ht2'. now subst e2'. }
  intros c Hc. apply in_or_app. right.
  destruct (broadcastRoomState_final st4 c Hc) as (e5' & Ht5' & Hin).
  rewrite Ht5 in Ht5'. apply app_inv_head in Ht5'. now subst e5'.
Qed.

(** X6.  [muteUser{id}] for an open, healthy target with a stored record
    (ids of open channels being distinct) stores the target's record with
    [audioEnabled] off and every other field as it was, sends [muteMic]
    on the target's channel first, and then broadcasts the roster that
    carries the muted record to every healthy open channel.  The muted
    record is what is stored when the handler is done. *)
Theorem muteUser_mutes connection id now st target otherUser :
  target ∈ getConnections st ->
  conn_id target = id ->
  NoDup (conn_id <$> getConnections st) ->
  healthy target = true ->
  get_user (session_key id) st = Some otherUser ->
  let o := onMessage connection (WSString (Some (C_muteUser id))) now st in
  let st1 := storage_put (session_key id) (VUser (mute otherUser)) st in
  o = Returned (final o)
  /\ get_user (session_key id) (final o) = Some (mute otherUser)
  /\ audioEnabled (tracks (mute otherUser)) = false
  /\ mute otherUser
     = mkUser (user_id otherUser) (name otherUser) (joined otherUser)
         (raisedHand otherUser) (speaking otherUser)
         (mkTracks (audio (tracks otherUser)) false
            (audioUnavailable (tracks otherUser)) (video (tracks otherUser))
            (videoEnabled (tracks otherUser))
            (screenShareEnabled (tracks otherUser)))
         (transceiverSessionId otherUser)
  /\ getUsers st1 = <[session_key id := mute otherUser]> (getUsers st)
  /\ exists evs,
       trace (final o) = trace st ++ Sent id S_muteMic :: evs
       /\ forall c, c ∈ getConnections st -> healthy c = true ->
            In (Sent (conn_id c) (roomStateMessage st1)) evs.
Proof.
  intros Hin Hid Hnd Hh Hu o st1. subst o id.
  unfold onMessage, handle.
  rewrite (find_connection_unique st target Hnd Hin), Hu.
  fold st1. unfold sendMessage, send. rewrite Hh. simpl.
  set (st2 := emit (Sent (conn_id target) S_muteMic) st1).
  split; [reflexivity|]. split.
  { apply get_user_Some. unfold broadcastRoomState.
    destruct (broadcastMessage_deletes (roomStateMessage st2) None st2
                (session_key (conn_id target)))
      as [->|(_ & c & Hc & Hhc & Hk)].
    - unfold st2, st1, storage_put. simpl. apply lookup_insert_eq.
    - apply session_key_inj in Hk.
      rewrite <- (connection_unique _ target c Hnd Hin Hc Hk) in Hhc.
      congruence. }
  split; [reflexivity|]. split; [reflexivity|].
  split; [apply getUsers_put_session|].
  destruct (broadcastMessage_trace (roomStateMessage st2) None st2)
    as [e Ht].
  exists (fanout_events (roomStateMessage st2) None (getConnections st2) ++ e).
  split.
  { unfold broadcastRoomState. rewrite Ht. simpl. now rewrite <- app_assoc. }
  intros c Hc Hhc. apply in_or_app. left.
  now apply fanout_events_In.
Qed.

(** Alice mutes Bob. *)
Lemma muteUser_mutes_witness :
  get_user (session_key "c2")
    (final (onMessage c1 (WSString (Some (C_muteUser "c2"))) 3000
              (room_of [c1; c2])))
  = Some (mute bob).
Proof.
  assert (Hin : c2 ∈ getConnections (room_of [c1; c2])) by (right; left).
  assert (Hnd : NoDup (conn_id <$> getConnections (room_of [c1; c2])))
    by compute_done.
  exact (proj1 (proj2 (muteUser_mutes c1 "c2" 3000 (room_of [c1; c2]) c2 bob
                         Hin eq_refl Hnd eq_refl eq_refl))).
Defined.

(** X7.  When the [switch] of [onMessage] throws, no channel has been
    closed, nothing has been sent and the alarm is as it was; the store
    is unchanged too, except when it is the [muteMic] send that threw, in
    which case the target's record is already stored muted.  The handler
    then sends the error to the sender and does nothing else. *)
Theorem handle_throws connection data now st e st' :
  handle connection data now st = Threw e st' ->
  trace st' = trace st
  /\ open_connections st' = open_connections st
  /\ alarm_at st' = alarm_at st
  /\ (storage st' = storage st
      \/ exists id otherUser,
           data = C_muteUser id
           /\ get_user (session_key id) st = Some otherUser
           /\ storage st'
              = <[session_key id := VUser (mute otherUser)]> (storage st))
  /\ onMessage connection (WSString (Some data)) now st
     = sendMessage connection (S_error e) st'.
Proof.
  intros H. unfold onMessage. rewrite H.
  split; [|split; [|split; [|split; [|reflexivity]]]];
    destruct data as [|user|entry sid|to message|id| | |tag]; simpl in H;
    try discriminate H;
    repeat match type of H with
    | context [find_connection ?i ?s] => destruct (find_connection i s)
    | context [get_user ?k ?s] => destruct (get_user k s) eqn:?
    | context [sendMessage ?c ?m ?s] =>
        unfold sendMessage, send in H; destruct (healthy c); simpl in H
    end;
    try discriminate H; injection H as <- <-; auto.
  right. eauto.
Qed.

(** Alice mutes Bob, whose channel is broken: Bob's record is stored
    muted, nobody is told, and Alice is sent the error. *)
Lemma handle_throws_witness :
  let o := onMessage c1 (WSString (Some (C_muteUser "c2"))) 3000
             (room_of [c1; c2_broken]) in
  o = sendMessage c1 (S_error "send")
        (storage_put (session_key "c2") (VUser (mute bob))
           (room_of [c1; c2_broken])).
Proof.
  exact (proj2 (proj2 (proj2 (proj2
           (handle_throws c1 (C_muteUser "c2") 3000 (room_of [c1; c2_broken])
              "send" _ eq_refl))))).
Defined.

(** X8.  No client message, whatever it is, changes the alarm, the room
    code, the meeting id or the heartbeat record of another user, and
    none opens a channel: [onMessage] only touches session records, the
    sender's heartbeat record, the set of open channels (by closing) and
    the trace (by extending it). *)
Theorem onMessage_frame connection message now st :
  let st' := final (onMessage connection message now st) in
  alarm_at st' = alarm_at st
  /\ getRoomCode st' = getRoomCode st
  /\ getMeetingId st' = getMeetingId st
  /\ (forall j, j <> conn_id connection ->
        storage st' !! heartbeat_key j = storage st !! heartbeat_key j)
  /\ (forall c, c ∈ getConnections st' -> c ∈ getConnections st)
  /\ exists evs, trace st' = trace st ++ evs.
Proof.
  intros st'.
  assert (H : sender_frame (conn_id connection) st st').
  { subst st'. unfold onMessage.
    destruct message as [|[data|]]; simpl.
    - apply sender_frame_refl.
    - pose proof (sender_frame_handle connection data now st) as Hh.
      destruct (handle connection data now st) as [s|e s]; simpl in *;
        [exact Hh|].
      eapply sender_frame_trans; [exact Hh|apply sender_frame_sendMessage].
    - apply sender_frame_sendMessage. }
  destruct H as (Ha & Hs & Hc & He).
  split; [exact Ha|].
  split; [unfold getRoomCode, get_string; rewrite Hs; [reflexivity..|discriminate]|].
  split; [unfold getMeetingId, get_string; rewrite Hs; [reflexivity..|discriminate]|].
  split; [|split; [exact Hc|exact He]].
  intros j Hj. apply Hs; [apply starts_with_heartbeat|].
  unfold heartbeat_key. intros E. apply Hj.
  cbv [append] in E. congruence.
Qed.

(** X9.  A [directMessage] whose [to] is the id of no open channel is
    dropped: nothing stored changes, no channel is closed and no
    [directMessage] is sent; the only message that can go out is an
    [error] to a sender that has no stored record (the warning that reads
    its name throws). *)
Theorem directMessage_unknown_target connection to message now st :
  (forall c, c ∈ getConnections st -> conn_id c <> to) ->
  let o := onMessage connection (WSString (Some (C_directMessage to message)))
             now st in
  storage (final o) = storage st
  /\ open_connections (final o) = open_connections st
  /\ alarm_at (final o) = alarm_at st
  /\ (trace (final o) = trace st
      \/ trace (final o)
         = trace st ++ [Sent (conn_id connection) (S_error "TypeError")])
  /\ (is_Some (get_user (session_key (conn_id connection)) st) ->
      o = Returned st).
Proof.
  intros Hnone o. subst o. unfold onMessage, handle.
  rewrite (find_connection_None st to Hnone).
  destruct (get_user (session_key (conn_id connection)) st) as [u|]; simpl.
  - repeat split; auto.
  - unfold sendMessage, send. destruct (healthy connection); simpl;
      repeat split; auto; intros [? [=]].
Qed.

(** Alice writes to [c9], who is not in the room of the scenario. *)
Lemma directMessage_unknown_target_witness :
  onMessage c1 (WSString (Some (C_directMessage "c9" "hello"))) 3000
    (room_of [c1; c2])
  = Returned (room_of [c1; c2]).
Proof.
  assert (Hnone : forall c, c ∈ getConnections (room_of [c1; c2]) ->
                            conn_id c <> "c9").
  { intros c Hc. simpl in Hc.
    apply elem_of_cons in Hc as [->|Hc]; [discriminate|].
    apply elem_of_cons in Hc as [->|Hc]; [discriminate|].
    now apply elem_of_nil in Hc. }
  apply (directMessage_unknown_target c1 "c9" "hello" 3000 (room_of [c1; c2])
           Hnone).
  exists alice. reflexivity.
Defined.

(** ** Connecting *)

(** X10.  [extractRoomCode] answers the segment that follows the first
    segment [rooms] of the path, and nothing when there is no such
    segment or when it is the last one. *)
Theorem extractRoomCode_spec segments rc :
  extractRoomCode segments = Some rc
  <-> exists pre post,
        segments = pre ++ "rooms" :: rc :: post /\ ("rooms" ∉ pre).
Proof.
  unfold extractRoomCode. split.
  - destruct (indexOf "rooms" segments) as [n|] eqn:E; [|discriminate].
    apply indexOf_Some in E as (pre & post & -> & Hpre & <-).
    intros H. exists pre. destruct post as [|rc' post].
    + rewrite lookup_ge_None_2 in H; [discriminate|].
      rewrite length_app. simpl. lia.
    + exists post.
      replace (S (length pre)) with (length (pre ++ ["rooms"]) + 0)%nat in H
        by (rewrite length_app; simpl; lia).
      replace (pre ++ "rooms" :: rc' :: post)
        with ((pre ++ ["rooms"]) ++ rc' :: post) in H
        by now rewrite <- app_assoc.
      rewrite lookup_app_r in H by lia.
      replace (length (pre ++ ["rooms"]) + 0 - length (pre ++ ["rooms"]))%nat
        with O in H by lia.
      simpl in H. injection H as ->. auto.
  - intros (pre & post & -> & Hpre).
    assert (indexOf "rooms" (pre ++ "rooms" :: rc :: post)
            = Some (length pre)) as -> by (apply indexOf_Some; eauto).
    replace (pre ++ "rooms" :: rc :: post)
      with ((pre ++ ["rooms"]) ++ rc :: post) by now rewrite <- app_assoc.
    replace (S (length pre)) with (length (pre ++ ["rooms"]) + 0)%nat
      by (rewrite length_app; simpl; lia).
    now rewrite lookup_app_r, Nat.add_0_r, Nat.sub_diag by lia.
Qed.

(** X11.  A connection whose path carries no room code (no [rooms]
    segment, [rooms] last, or an empty segment after it) is turned away
    without asking the lifecycle service: whatever the service, the
    store, the alarm and the other channels are left as they were, and
    the channel, if it accepts the message, is sent [error: 'Room
    invalid'] and closed with 4004. *)
Theorem onConnect_without_room_code env env' connection ctx now uuid st :
  truthy (extractRoomCode (request_path ctx)) = false ->
  let o := onConnect env connection ctx now uuid st in
  o = onConnect env' connection ctx now uuid st
  /\ storage (final o) = storage st
  /\ alarm_at (final o) = alarm_at st
  /\ (healthy connection = true ->
      o = Returned (close connection 4004
                      (emit (Sent (conn_id connection) (S_error "Room invalid"))
                         st)))
  /\ (healthy connection = false -> o = Threw "send" st).
Proof.
  intros Hno o. subst o. unfold onConnect, isRoomValid.
  destruct (extractRoomCode (request_path ctx)) as [rc|]; rewrite ?Hno; simpl;
    unfold sendMessage, send; destruct (healthy connection); simpl;
    repeat split; auto; discriminate.
Qed.

(** A path that stops at [rooms]. *)
Lemma onConnect_without_room_code_witness :
  onConnect (service 0 "planned") c1 (mkContext [""; "rooms"] (Some "Alice"))
    1000 "m1" (room_of [c1])
  = Returned (close c1 4004
                (emit (Sent "c1" (S_error "Room invalid")) (room_of [c1]))).
Proof.
  destruct (onConnect_without_room_code (service 0 "planned") no_service c1
              (mkContext [""; "rooms"] (Some "Alice")) 1000 "m1" (room_of [c1])
              eq_refl) as (_ & _ & _ & H & _).
  exact (H eq_refl).
Defined.

(** X12.  When the room is valid but the user name of the request cannot
    be resolved, [onConnect] throws after it has stored the room code
    (if none was stored) and armed the alarm (if none was armed): no
    session or heartbeat record is written, no meeting is created,
    nothing is sent and the channel is left open. *)
Theorem onConnect_unresolved_username env connection ctx now uuid st :
  ok (isRoomValid env (extractRoomCode (request_path ctx))) = true ->
  request_username ctx = None ->
  let o := onConnect env connection ctx now uuid st in
  (exists st', o = Threw "assertNonNullable" st')
  /\ getRoomCode (final o)
     = (if truthy (getRoomCode st) then getRoomCode st
        else extractRoomCode (request_path ctx))
  /\ alarm_at (final o)
     = (if no_alarm st then Some (now + alarmInterval) else alarm_at st)
  /\ (forall k, k <> "roomCode" -> storage (final o) !! k = storage st !! k)
  /\ trace (final o) = trace st
  /\ open_connections (final o) = open_connections st.
Proof.
  intros Hvalid Hname o. subst o. unfold onConnect.
  rewrite Hvalid, Hname. simpl.
  assert (Hrc : truthy (extractRoomCode (request_path ctx)) = true).
  { unfold isRoomValid in Hvalid.
    destruct (extractRoomCode (request_path ctx)) as [rc|]; [|discriminate].
    destruct (truthy (Some rc)); [reflexivity|discriminate]. }
  destruct (extractRoomCode (request_path ctx)) as [rc|]; [|discriminate].
  rewrite Hrc. simpl.
  destruct (truthy (getRoomCode st)) eqn:Hst; simpl.
  - unfold no_alarm. destruct (alarm_at st) as [t|] eqn:Ha;
      [destruct (t =? 0)|]; simpl; repeat split; eauto.
  - unfold no_alarm. simpl.
    assert (Hget : getRoomCode (storage_put "roomCode" (VString rc) st) = Some rc).
    { unfold getRoomCode, get_string, storage_put. simpl.
      now rewrite lookup_insert_eq. }
    destruct (alarm_at st) as [t|] eqn:Ha; [destruct (t =? 0)|]; simpl;
      (split; [eauto|]); (split; [exact Hget|]); (split; [auto|]);
      (split; [|auto]); intros k Hk; now rewrite lookup_insert_ne.
Qed.

(** The first connection to room [abc123], without a user name. *)
Lemma onConnect_unresolved_username_witness :
  final (onConnect (service 0 "planned") c1
           (mkContext [""; "rooms"; "abc123"] None) 1000 "m1"
           (mkState ∅ None [c1] []))
  = unnamed_room.
Proof.
  destruct (onConnect_unresolved_username (service 0 "planned") c1
              (mkContext [""; "rooms"; "abc123"] None) 1000 "m1"
              (mkState ∅ None [c1] []) eq_refl eq_refl)
    as ([st' H] & _).
  rewrite H. simpl.
  apply (f_equal final) in H. simpl in H. rewrite <- H.
  vm_compute. reflexivity.
Defined.

(** X13.  A connection to a valid room with a resolved user name is
    registered (no broken channel of the same id being open, and the
    fresh meeting id not being empty): when [onConnect] is done
    - the session record of the channel is the one that was stored under
      its id, or the default user when there was none;
    - its heartbeat record is the time of the connection;
    - the meeting id is the one that was stored, or the fresh one;
    - the room code is the one that was stored, or the one of the path;
    - the alarm is the one that was armed, or [now + 15000];
    - every channel still open has been sent the roster of the final
      state, which contains the record. *)
Theorem onConnect_registers env connection ctx now uuid st username :
  ok (isRoomValid env (extractRoomCode (request_path ctx))) = true ->
  request_username ctx = Some username ->
  uuid <> "" ->
  (forall c, c ∈ getConnections st -> healthy c = false ->
             conn_id c <> conn_id connection) ->
  let id := conn_id connection in
  let user := match get_user (session_key id) st with
              | Some u => u
              | None => defaultUser id username
              end in
  let o := onConnect env connection ctx now uuid st in
  o = Returned (final o)
  /\ get_user (session_key id) (final o) = Some user
  /\ get_number (heartbeat_key id) (final o) = Some now
  /\ getMeetingId (final o)
     = (if truthy (getMeetingId st) then getMeetingId st else Some uuid)
  /\ getRoomCode (final o)
     = (if truthy (getRoomCode st) then getRoomCode st
        else extractRoomCode (request_path ctx))
  /\ alarm_at (final o)
     = (if no_alarm st then Some (now + alarmInterval) else alarm_at st)
  /\ exists mid roster,
       roomStateMessage (final o) = S_roomState mid roster
       /\ user ∈ roster
       /\ forall c, c ∈ getConnections (final o) ->
            exists evs, trace (final o) = trace st ++ evs
                        /\ In (Sent (conn_id c) (S_roomState mid roster)) evs.
Proof.
  intros Hvalid Hname Huuid Hbroken id user o. subst o. unfold onConnect.
  rewrite Hvalid, Hname. cbn [negb final]. fold id.
  assert (Hrc : truthy (extractRoomCode (request_path ctx)) = true).
  { unfold isRoomValid in Hvalid.
    destruct (extractRoomCode (request_path ctx)) as [rc|]; [|discriminate].
    destruct (truthy (Some rc)); [reflexivity|discriminate]. }
  set (st1 := match extractRoomCode (request_path ctx) with
              | Some rc => _ | None => st end).
  assert (H1 : (forall k, k <> "roomCode" -> storage st1 !! k = storage st !! k)
               /\ alarm_at st1 = alarm_at st
               /\ open_connections st1 = open_connections st
               /\ trace st1 = trace st
               /\ getRoomCode st1
                  = (if truthy (getRoomCode st) then getRoomCode st
                     else extractRoomCode (request_path ctx))).
  { subst st1. destruct (extractRoomCode (request_path ctx)) as [rc|];
      [|discriminate]. rewrite Hrc. simpl.
    destruct (truthy (getRoomCode st)); simpl; repeat split; auto.
    - intros k Hk. now rewrite lookup_insert_ne.
    - unfold getRoomCode, get_string, storage_put. simpl.
      now rewrite lookup_insert_eq. }
  destruct H1 as (Hs1 & Ha1 & Hc1 & Ht1 & Hr1).
  set (st2 := if no_alarm st1 then _ else st1).
  assert (H2 : storage st2 = storage st1
               /\ alarm_at st2
                  = (if no_alarm st then Some (now + alarmInterval)
                     else alarm_at st)
               /\ open_connections st2 = open_connections st
               /\ trace st2 = trace st).
  { subst st2. unfold no_alarm. rewrite Ha1.
    destruct (alarm_at st) as [t|] eqn:Ha; [destruct (t =? 0)|]; simpl;
      repeat split; auto; congruence. }
  destruct H2 as (Hs2 & Ha2 & Hc2 & Ht2).
  assert (Huser : match get_user (session_key id) st2 with
                  | Some u => u
                  | None => defaultUser id username
                  end = user).
  { unfold user, get_user. rewrite Hs2, Hs1; [reflexivity|discriminate]. }
  rewrite Huser.
  set (st4 := storage_put (heartbeat_key id) (VNumber now)
                (storage_put (session_key id) (VUser user) st2)).
  set (st4' := if truthy (getMeetingId st4) then st4
               else storage_put "meetingId" (VString uuid) st4).
  assert (Hmid4 : getMeetingId st4 = getMeetingId st).
  { unfold getMeetingId, get_string, st4, storage_put. simpl.
    rewrite !lookup_insert_ne by discriminate.
    rewrite Hs2, Hs1; [reflexivity|discriminate]. }
  assert (H4' : storage st4' !! session_key id = Some (VUser user)
                /\ storage st4' !! heartbeat_key id = Some (VNumber now)
                /\ getMeetingId st4'
                   = (if truthy (getMeetingId st) then getMeetingId st
                      else Some uuid)
                /\ getRoomCode st4' = getRoomCode st1
                /\ alarm_at st4' = alarm_at st2
                /\ open_connections st4' = open_connections st
                /\ trace st4' = trace st).
  { assert (Hk : storage st4 !! session_key id = Some (VUser user)).
    { unfold st4, storage_put. simpl.
      rewrite lookup_insert_ne by apply heartbeat_not_session.
      apply lookup_insert_eq. }
    assert (Hh : storage st4 !! heartbeat_key id = Some (VNumber now)).
    { unfold st4, storage_put. simpl. apply lookup_insert_eq. }
    assert (Hr : getRoomCode st4 = getRoomCode st1).
    { unfold getRoomCode, get_string, st4, storage_put. simpl.
      rewrite !lookup_insert_ne by discriminate. now rewrite Hs2. }
    subst st4'. rewrite Hmid4.
    destruct (truthy (getMeetingId st)) eqn:Hm.
    - repeat split; auto.
    - split; [|split; [|split; [|split]]].
      + unfold storage_put. simpl. now rewrite lookup_insert_ne by discriminate.
      + unfold storage_put. simpl. now rewrite lookup_insert_ne by discriminate.
      + unfold getMeetingId, get_string, storage_put. simpl.
        now rewrite lookup_insert_eq.
      + rewrite <- Hr. unfold getRoomCode, get_string, storage_put. simpl.
        now rewrite lookup_insert_ne by discriminate.
      + repeat split; auto. }
  destruct H4' as (Hk4 & Hh4 & Hm4 & Hr4 & Ha4 & Hc4 & Ht4).
  destruct (cleanupOldConnections_survivor env now st4' (session_key id) user)
    as (Hk5 & Hnz5).
  { apply getUsers_lookup_Some. split; [apply starts_with_session|exact Hk4]. }
  { rewrite replace_first_session. unfold get_number. rewrite Hh4. simpl.
    apply Z.ltb_ge. unfold alarmInterval. lia. }
  { intros c Hc Hh E. apply session_key_inj in E.
    unfold getConnections in Hc. rewrite Hc4 in Hc. now apply (Hbroken c). }
  destruct (cleanupOldConnections_room_kept env now st4' Hnz5)
    as (Ha5 & Hs5 & e5 & Ht5).
  destruct (only_removes_cleanup env now st4') as (_ & Hc5 & _).
  set (st5 := (trackPeakUserCount env now uuid st4).2).
  assert (H5 : storage st5 = storage (cleanupOldConnections env now st4').2
               /\ alarm_at st5 = alarm_at (cleanupOldConnections env now st4').2
               /\ open_connections st5
                  = open_connections (cleanupOldConnections env now st4').2
               /\ exists e, trace st5
                            = trace (cleanupOldConnections env now st4').2 ++ e).
  { subst st5. destruct (trackPeakUserCount_state env now uuid st4)
      as [->|(room & peak & ->)]; simpl; repeat split.
    - exists []. now rewrite app_nil_r.
    - eauto. }
  destruct H5 as (Hs5' & Ha5' & Hc5' & e5' & Ht5').
  destruct (keeps_room_broadcast (roomStateMessage st5) None st5)
    as (Ha6 & Hs6 & _).
  fold (broadcastRoomState st5) in Ha6, Hs6.
  assert (Hk6 : storage (broadcastRoomState st5) !! session_key id
                = Some (VUser user)).
  { unfold broadcastRoomState.
    destruct (broadcastMessage_deletes (roomStateMessage st5) None st5
                (session_key id)) as [->|(_ & c & Hc & Hh & E)].
    - now rewrite Hs5'.
    - apply session_key_inj in E. exfalso. apply (Hbroken c); auto.
      unfold getConnections in *. rewrite Hc5' in Hc.
      apply Hc5 in Hc. now rewrite Hc4 in Hc. }
  assert (Hm6 : getMeetingId (broadcastRoomState st5)
                = (if truthy (getMeetingId st) then getMeetingId st
                   else Some uuid)).
  { rewrite <- Hm4. unfold getMeetingId, get_string.
    rewrite Hs6, Hs5', Hs5; auto. }
  split; [reflexivity|].
  split; [now apply get_user_Some|].
  split.
  { unfold get_number. rewrite Hs6, Hs5', Hs5, Hh4;
      auto using starts_with_heartbeat. }
  split; [exact Hm6|].
  split.
  { rewrite <- Hr1, <- Hr4. unfold getRoomCode, get_string.
    rewrite Hs6, Hs5', Hs5; auto. }
  split.
  { unfold broadcastRoomState.
    rewrite broadcastMessage_alarm, Ha5', Ha5, Ha4. exact Ha2. }
  assert (Hmsg : exists mid, roomStateMessage (broadcastRoomState st5)
                 = S_roomState mid
                     ((map_to_list (getUsers (broadcastRoomState st5))).*2)).
  { unfold roomStateMessage. rewrite Hm6.
    destruct (getMeetingId st) as [mid|] eqn:Hmid; simpl.
    - destruct (String.eqb_spec mid "") as [->|Hne]; simpl.
      + destruct (String.eqb_spec uuid ""); [contradiction|]. simpl. eauto.
      + destruct (String.eqb_spec mid ""); [contradiction|]. simpl. eauto.
    - destruct (String.eqb_spec uuid ""); [contradiction|]. simpl. eauto. }
  destruct Hmsg as [mid Hmsg].
  exists mid, ((map_to_list (getUsers (broadcastRoomState st5))).*2).
  split; [exact Hmsg|]. split.
  { apply list_elem_of_fmap. exists (session_key id, user).
    split; [reflexivity|]. apply elem_of_map_to_list.
    apply getUsers_lookup_Some. split; [apply starts_with_session|exact Hk6]. }
  intros c Hc. destruct (broadcastRoomState_final st5 c Hc) as (e6 & Ht6 & Hin).
  exists (e5 ++ e5' ++ e6). split.
  - rewrite Ht6, Ht5', Ht5, Ht4. now rewrite <- !app_assoc.
  - rewrite Hmsg in Hin. apply in_or_app. right. apply in_or_app. now right.
Qed.

(** Alice is the first to connect to room [abc123]. *)
Lemma onConnect_registers_witness :
  let st' := final (onConnect (service 0 "planned") c1
                      (mkContext [""; "rooms"; "abc123"] (Some "Alice"))
                      1000 "m1" (mkState ∅ None [c1] [])) in
  get_user (session_key "c1") st' = Some alice
  /\ get_number (heartbeat_key "c1") st' = Some 1000
  /\ getMeetingId st' = Some "m1"
  /\ getRoomCode st' = Some "abc123"
  /\ alarm_at st' = Some 16000.
Proof.
  intros st'.
  assert (Hb : forall c, c ∈ getConnections (mkState ∅ None [c1] []) ->
                 healthy c = false -> conn_id c <> conn_id c1).
  { intros c Hc Hh. simpl in Hc.
    apply elem_of_cons in Hc as [->|Hc]; [discriminate Hh|].
    now apply elem_of_nil in Hc. }
  assert (Hu : "m1" <> "") by discriminate.
  destruct (onConnect_registers (service 0 "planned") c1
              (mkContext [""; "rooms"; "abc123"] (Some "Alice"))
              1000 "m1" (mkState ∅ None [c1] []) "Alice"
              eq_refl eq_refl Hu Hb)
    as (_ & H1 & H2 & H3 & H4 & H5 & _).
  repeat split; assumption.
Defined.

(** ** Starting up and ending *)

(** X14.  [onStart] does nothing when no room code is stored or when the
    lifecycle service still accepts the stored one.  When the service
    rejects it, the room is torn down: the alarm is deleted, every open
    channel is closed with code 4004, in order, and the store is
    cleared. *)
Theorem onStart_spec env st :
  (truthy (getRoomCode st) = false -> onStart env st = st)
  /\ (ok (isRoomValid env (getRoomCode st)) = true -> onStart env st = st)
  /\ (truthy (getRoomCode st) = true ->
      ok (isRoomValid env (getRoomCode st)) = false ->
      onStart env st
      = mkState ∅ None []
          (trace st ++ ((fun c => Closed (conn_id c) 4004) <$> getConnections st))).
Proof.
  unfold onStart. destruct (getRoomCode st) as [rc|]; simpl.
  - destruct (String.eqb_spec rc "") as [->|Hne]; simpl.
    + repeat split; auto; discriminate.
    + split; [discriminate|]. split; [now intros ->|].
      intros _ ->. simpl.
      destruct (close_all 4004 (getConnections (set_alarm_at None st))
                  (set_alarm_at None st)) as (Hs & Ha & Ht & Hc).
      apply state_eq; simpl; auto.
      apply elem_of_nil_inv. intros c Hin.
      destruct (Hc c Hin) as [Hin' Hne']. now apply (Hne' c).
  - repeat split; auto; discriminate.
Qed.

(** The room of the scenario, started when the service knows no room. *)
Lemma onStart_spec_witness :
  onStart no_service (room_of [c1; c2])
  = mkState ∅ None [] [Closed "c1" 4004; Closed "c2" 4004].
Proof.
  destruct (onStart_spec no_service (room_of [c1; c2])) as (_ & _ & H).
  exact (H eq_refl eq_refl).
Defined.

(** X15.  [endMeeting] clears the store and leaves the alarm and the
    channels alone.  If a room code was stored it posts one report for
    that room, with status [done] and with [peakUsers] 0 whatever the
    lifecycle service has recorded (the meeting is looked up after the
    store has been cleared); if none was stored it posts nothing. *)
Theorem endMeeting_spec env meetingId st :
  let st' := endMeeting env meetingId st in
  storage st' = ∅
  /\ alarm_at st' = alarm_at st
  /\ open_connections st' = open_connections st
  /\ trace st'
     = trace st ++ match getRoomCode st with
                   | Some rc => if truthy (Some rc)
                                then [StatsReport rc 0 "done"] else []
                   | None => []
                   end.
Proof.
  intros st'. subst st'.
  split; [apply endMeeting_storage|]. split; [apply endMeeting_alarm|].
  unfold endMeeting. destruct (getRoomCode st) as [rc|]; simpl.
  - destruct (String.eqb rc ""); simpl; split; auto; now rewrite app_nil_r.
  - split; auto. now rewrite app_nil_r.
Qed.

(** ** Peak reports *)



(** X17.  When no meeting id is stored, [trackPeakUserCount] stores the
    fresh one before it sweeps.  It answers [undefined] (the id it read
    on entry) even though a meeting now exists, and when the lifecycle
    service does not answer for the stored room code it posts no
    report. *)
Theorem trackPeakUserCount_creates env now uuid st :
  getMeetingId st = None ->
  let st1 := storage_put "meetingId" (VString uuid) st in
  let r := trackPeakUserCount env now uuid st in
  r.1 = None
  /\ getMeetingId st1 = Some uuid
  /\ (r.2 = (cleanupOldConnections env now st1).2
      \/ exists room peak,
           r.2 = emit (StatsReport room peak "started")
                   (cleanupOldConnections env now st1).2)
  /\ ((forall rc, getRoomCode st = Some rc -> ok (api_get_room env rc) = false) ->
      r.2 = (cleanupOldConnections env now st1).2).
Proof.
  intros Hnone st1 r. subst r.
  split.
  { unfold trackPeakUserCount, createMeeting. rewrite Hnone.
    destruct (getMeeting env uuid _); [|reflexivity].
    unfold strict_ne_null. now rewrite orb_true_r. }
  split.
  { unfold getMeetingId, get_string, st1, storage_put. simpl.
    now rewrite lookup_insert_eq. }
  split.
  { pose proof (trackPeakUserCount_state env now uuid st) as H.
    rewrite Hnone in H. exact H. }
  intros Hdown. unfold trackPeakUserCount, createMeeting. rewrite Hnone.
  fold st1.
  assert (getMeeting env uuid st1 = None) as ->; [|reflexivity].
  unfold getMeeting, isRoomValid.
  assert (Hrc : getRoomCode st1 = getRoomCode st).
  { unfold getRoomCode, get_string, st1, storage_put. simpl.
    now rewrite lookup_insert_ne by discriminate. }
  rewrite Hrc. destruct (getRoomCode st) as [rc|]; [|reflexivity].
  destruct (negb (truthy (Some rc))) eqn:E; [reflexivity|].
  apply negb_false_iff in E. rewrite E.
  now rewrite (Hdown rc eq_refl).
Qed.

(** The room of the scenario without its meeting id, the service being
    down. *)
Lemma trackPeakUserCount_creates_witness :
  let st := storage_delete "meetingId" (room_of [c1; c2]) in
  let r := trackPeakUserCount no_service 10000 "fresh" st in
  r.1 = None /\ getMeetingId r.2 = Some "fresh" /\ trace r.2 = [].
Proof.
  intros st r.
  destruct (trackPeakUserCount_creates no_service 10000 "fresh" st
              eq_refl) as (H1 & _ & _ & H4).
  split; [exact H1|].
  subst r. rewrite H4 by reflexivity.
  vm_compute. auto.
Defined.

(** ** Broadcasting *)

(** X18.  The recursion of [broadcastMessage] and [broadcastRoomState]
    ends: a round in which some [send] threw closes a channel, so any
    number of rounds that covers the open channels gives the same
    result, and that result obeys the equation of the source: the state
    after the round when no [send] threw, and otherwise the roster
    broadcast from that state. *)
Theorem broadcastMessage_rounds m x st :
  (forall fuel, (length (getConnections st) <= fuel)%nat ->
     broadcast_rounds fuel m x st = broadcastMessage m x st)
  /\ broadcastMessage m x st
     = (let r := fanout m x (getConnections st) st in
        if r.1 then broadcastRoomState r.2 else r.2).
Proof.
  split; [|apply broadcastMessage_unfold].
  intros fuel Hfuel. unfold broadcastMessage.
  apply broadcast_rounds_fuel; unfold getConnections in *; lia.
Qed.

(** X19.  When the [send] of no channel throws, [broadcastMessage] sends
    the message once on every open channel but the excluded one, in the
    order of the channels, and changes nothing else. *)
Theorem broadcastMessage_no_failure m x st :
  (forall c, c ∈ getConnections st -> is_excluded x c = false ->
             healthy c = true) ->
  broadcastMessage m x st
  = mkState (storage st) (alarm_at st) (open_connections st)
      (trace st ++ ((fun c => Sent (conn_id c) m)
                      <$> filter (fun c => is_excluded x c = false)
                            (getConnections st))).
Proof.
  intros Hh.
  assert (Hq : existsb (fails x) (getConnections st) = false).
  { destruct (existsb (fails x) (getConnections st)) eqn:E; [|reflexivity].
    apply existsb_exists in E as (c & Hc%list_elem_of_In & Hf).
    unfold fails in Hf. apply andb_true_iff in Hf as [Hx Hf].
    apply negb_true_iff in Hx, Hf. rewrite (Hh c Hc Hx) in Hf. discriminate. }
  rewrite broadcastMessage_unfold. cbv zeta. rewrite fanout_quit, Hq.
  apply state_eq; simpl.
  - now apply fanout_no_failure_storage.
  - apply fanout_alarm.
  - now apply fanout_no_failure_connections.
  - rewrite fanout_trace. now rewrite fanout_events_no_failure.
Qed.

(** A notification that leaves out Bob's channel. *)
Lemma broadcastMessage_no_failure_witness :
  trace (broadcastMessage (S_userLeftNotification "c9") (Some c2)
           (room_of [c1; c2]))
  = [Sent "c1" (S_userLeftNotification "c9")].
Proof.
  assert (Hh : forall c, c ∈ getConnections (room_of [c1; c2]) ->
                 is_excluded (Some c2) c = false -> healthy c = true).
  { intros c Hc _. simpl in Hc.
    apply elem_of_cons in Hc as [->|Hc]; [reflexivity|].
    apply elem_of_cons in Hc as [->|Hc]; [reflexivity|].
    now apply elem_of_nil in Hc. }
  rewrite (broadcastMessage_no_failure _ (Some c2) (room_of [c1; c2]) Hh).
  reflexivity.
Defined.

(** X20.  A channel whose [send] throws during a broadcast is dealt with
    on the spot: it is closed with code 1011, its session record is
    deleted, and the roster is broadcast again from the state the round
    leaves.  When the broadcast is done the record is still absent and
    no channel with that id is open. *)
Theorem broadcastMessage_broken_channel m x st c :
  c ∈ getConnections st ->
  is_excluded x c = false ->
  healthy c = false ->
  let st' := broadcastMessage m x st in
  st' = broadcastRoomState (fanout m x (getConnections st) st).2
  /\ storage st' !! session_key (conn_id c) = None
  /\ (forall c', c' ∈ getConnections st' -> conn_id c' <> conn_id c)
  /\ exists evs, trace st' = trace st ++ evs
                 /\ In (Closed (conn_id c) 1011) evs.
Proof.
  intros Hc Hx Hh st'.
  assert (Hf : fails x c = true) by (unfold fails; now rewrite Hx, Hh).
  assert (Hq : (fanout m x (getConnections st) st).1 = true).
  { rewrite fanout_quit. apply existsb_exists. exists c.
    split; [now apply list_elem_of_In|exact Hf]. }
  assert (Hst : st' = broadcastRoomState (fanout m x (getConnections st) st).2).
  { subst st'. rewrite broadcastMessage_unfold. cbv zeta. now rewrite Hq. }
  split; [exact Hst|]. rewrite Hst. unfold broadcastRoomState.
  split.
  { apply broadcastMessage_storage_None. rewrite fanout_storage.
    assert (existsb (fun c0 => fails x c0
              && String.eqb (session_key (conn_id c0)) (session_key (conn_id c)))
              (getConnections st) = true) as ->; [|reflexivity].
    apply existsb_exists. exists c. split; [now apply list_elem_of_In|].
    now rewrite Hf, String.eqb_refl. }
  split.
  { intros c' Hc'. apply broadcastMessage_connections_elem in Hc'.
    rewrite fanout_connections in Hc'.
    apply list_elem_of_filter in Hc' as [Hall _].
    rewrite Forall_forall in Hall. now apply (Hall c). }
  destruct (broadcastMessage_trace
              (roomStateMessage (fanout m x (getConnections st) st).2) None
              (fanout m x (getConnections st) st).2) as [e He].
  rewrite He, fanout_trace. rewrite <- app_assoc. eexists. split; [reflexivity|].
  apply in_or_app. left. now apply fanout_events_closed.
Qed.

(** Bob's channel is broken when a notification goes out. *)
Lemma broadcastMessage_broken_channel_witness :
  let st' := broadcastMessage (S_userLeftNotification "c9") None
               (room_of [c1; c2_broken]) in
  storage st' !! session_key "c2" = None
  /\ forall c', c' ∈ getConnections st' -> conn_id c' <> "c2".
Proof.
  intros st'.
  assert (Hin : c2_broken ∈ getConnections (room_of [c1; c2_broken]))
    by (right; left).
  destruct (broadcastMessage_broken_channel (S_userLeftNotification "c9") None
              (room_of [c1; c2_broken]) c2_broken Hin eq_refl eq_refl)
    as (_ & Hs & Hc & _).
  split; [exact Hs|exact Hc].
Defined.

(** X21.  [broadcastRoomState] settles the room: every channel that is
    still open when it is done is healthy and has been sent the roster
    message of the final state; the alarm, and every key that is not a
    session key, are as they were. *)
Theorem broadcastRoomState_settles st :
  let st' := broadcastRoomState st in
  (forall c, c ∈ getConnections st' ->
     healthy c = true
     /\ c ∈ getConnections st
     /\ exists evs, trace st' = trace st ++ evs
                    /\ In (Sent (conn_id c) (roomStateMessage st')) evs)
  /\ alarm_at st' = alarm_at st
  /\ (forall k, starts_with "session-" k = false ->
        storage st' !! k = storage st !! k).
Proof.
  intros st'. subst st'. split; [|split].
  - intros c Hc. split; [|split].
    + now apply (broadcastMessage_leaves_healthy (roomStateMessage st) st).
    + now apply broadcastMessage_connections_elem in Hc.
    + now apply broadcastRoomState_final.
  - apply broadcastMessage_alarm.
  - intros k Hk. now apply broadcastMessage_storage_other.
Qed.


